(** * mcp-acp-checkout: checkout session lifecycle and payment orchestration

    A shallow embedding of
      - [utils/index.ts]       (generateId, calculateSubtotal),
      - [managers/session.ts]  (class SessionManager),
      - [managers/payment.ts]  (class PaymentManager),
      - [index.ts]             (class CommerceTools),
    followed by the properties of the session store, the cart, the totals and
    the two payment-completion strategies.

    Conventions of the embedding.
      - A JavaScript [number] holding an amount in cents or a quantity is a
        [Z]; a [Date] is its [getTime()] value in milliseconds, a [Z].
      - A [Map<string, T>] is a [gmap string T].
      - A method that mutates [this] and may throw is a function from the
        object's state to a result and the state left behind; a throw keeps
        the mutations made before it.
      - What the code obtains from its environment is an argument of the
        embedded function: the value of each [new Date()], the random part
        of each generated identifier, the gateway's answers and the
        fulfillment callback.
      - Each public call runs to completion before the next one starts, so
        the session object a call holds is the one stored under its id. *)

From stdpp Require Import base option list gmap strings pretty.
From Stdlib Require Import ZArith Lia.

Local Open Scope Z_scope.

(* ===================================================================== *)
(** ** types/index.ts *)
(* ===================================================================== *)

Inductive Currency := usd | eur | gbp | cad | aud.

Module SessionStatus.
Inductive t :=
  | pending | ready | processing | completed | failed | expired | cancelled.
End SessionStatus.

Module OrderStatus.
Inductive t := pending | fulfilled | refunded | cancelled.
End OrderStatus.

(** The fields of [Product] read by the session and payment managers. *)
Module Product.
Record t := mk {
  id : string;
  name : string;
  price : Z;
  currency : Currency
}.
End Product.

Module CartItem.
Record t := mk {
  productId : string;
  quantity : Z;
  price : Z;
  currency : Currency;
  name : string
}.
Definition with_quantity (q : Z) (i : t) : t :=
  mk (productId i) q (price i) (currency i) (name i).
End CartItem.

Module BuyerInfo.
Record t := mk {
  email : string;
  name : option string
}.
End BuyerInfo.

Module Totals.
Record t := mk {
  subtotal : Z;
  tax : Z;
  shipping : Z;
  discount : Z;
  total : Z;
  currency : Currency
}.
End Totals.

Module PaymentInfo.
Record t := mk {
  stripePaymentIntentId : option string
}.
End PaymentInfo.

Module CheckoutSession.
Record t := mk {
  id : string;
  status : SessionStatus.t;
  items : list CartItem.t;
  buyer : option BuyerInfo.t;
  totals : Totals.t;
  payment : option PaymentInfo.t;
  createdAt : Z;
  expiresAt : Z
}.
Definition with_status (x : SessionStatus.t) (s : t) : t :=
  mk (id s) x (items s) (buyer s) (totals s) (payment s)
     (createdAt s) (expiresAt s).
Definition with_items (x : list CartItem.t) (s : t) : t :=
  mk (id s) (status s) x (buyer s) (totals s) (payment s)
     (createdAt s) (expiresAt s).
Definition with_buyer (x : BuyerInfo.t) (s : t) : t :=
  mk (id s) (status s) (items s) (Some x) (totals s) (payment s)
     (createdAt s) (expiresAt s).
Definition with_totals (x : Totals.t) (s : t) : t :=
  mk (id s) (status s) (items s) (buyer s) x (payment s)
     (createdAt s) (expiresAt s).
End CheckoutSession.

Module OrderPayment.
Record t := mk {
  stripePaymentIntentId : string;
  paidAt : Z
}.
End OrderPayment.

Module Order.
Record t := mk {
  id : string;
  sessionId : string;
  items : list CartItem.t;
  buyer : BuyerInfo.t;
  totals : Totals.t;
  payment : OrderPayment.t;
  status : OrderStatus.t;
  createdAt : Z
}.
End Order.

(* ===================================================================== *)
(** ** Thrown errors *)
(* ===================================================================== *)

(** Each constructor is one [throw new Error(...)] site family of the code;
    [message] gives the text.  [StripeError] and [Thrown] are exceptions
    raised by a collaborator (the Stripe SDK, [fetch], the fulfillment
    callback). *)
Inductive Error :=
  | SessionNotFound
  | ProductNotFound (productId : string)
  | InvalidQuantity
  | ItemNotInCart
  | EmptyCart (what : string)
  | MissingBuyerInfo (msg : string)
  | TotalNotPositive
  | PaymentFailed (why : string)
  | BuyerRequired
  | PaymentNotSucceeded
  | MissingPaymentMethod
  | StripeApiError (msg : string)
  | TokenFailed (msg : string)
  | StripeError (msg : string)
  | Thrown (msg : string).

Definition message (e : Error) : string :=
  match e with
  | SessionNotFound => "Session not found or expired"
  | ProductNotFound p => "Product not found: " +:+ p
  | InvalidQuantity => "Quantity must be positive"
  | ItemNotInCart => "Item not in cart"
  | EmptyCart what => what
  | MissingBuyerInfo msg => msg
  | TotalNotPositive => "Total must be greater than 0"
  | PaymentFailed why => "Payment failed: " +:+ why
  | BuyerRequired => "Buyer information required to create order"
  | PaymentNotSucceeded => "Payment must be succeeded to create order"
  | MissingPaymentMethod => "Must provide either paymentMethodId or cardDetails"
  | StripeApiError msg => "Stripe API error: " +:+ msg
  | TokenFailed msg => "Failed to create payment token: " +:+ msg
  | StripeError msg => msg
  | Thrown msg => msg
  end.

Inductive Result (A : Type) :=
  | Ok (a : A)
  | Err (e : Error).
Arguments Ok {A} a.
Arguments Err {A} e.

(** A method of an object with state [S]: the outcome and the state after
    the call.  [bind] stops at the first throw, [catch] is [try]/[catch]. *)
Definition M (S A : Type) : Type := S → Result A * S.

Definition ret {S A} (a : A) : M S A := λ s, (Ok a, s).
Definition throw {S A} (e : Error) : M S A := λ s, (Err e, s).
Definition bind {S A B} (m : M S A) (k : A → M S B) : M S B :=
  λ s, match m s with
       | (Ok a, s') => k a s'
       | (Err e, s') => (Err e, s')
       end.
Definition catch {S A} (m : M S A) (h : Error → M S A) : M S A :=
  λ s, match m s with
       | (Ok a, s') => (Ok a, s')
       | (Err e, s') => h e s'
       end.
Definition modify {S} (f : S → S) : M S unit := λ s, (Ok tt, f s).
Definition of_result {S A} (r : Result A) : M S A := λ s, (r, s).

Notation "'do' x <- m ; k" := (bind m (λ x, k))
  (at level 10, x name, m at level 100, k at level 200).
Notation "m ;; k" := (bind m (λ _, k))
  (at level 100, k at level 200, right associativity).

(** JavaScript truthiness of a string: the empty string is falsy. *)
Definition truthy (s : string) : bool := negb (bool_decide (s = "")).

(* ===================================================================== *)
(** ** utils/index.ts *)
(* ===================================================================== *)

(** [generateId(prefix)]: the prefix followed by the characters drawn from
    [Math.random()]; [rnd] is that drawn part. *)
Definition generateId (prefix rnd : string) : string := prefix +:+ rnd.

(** [items.reduce((sum, item) => sum + (item.price * item.quantity), 0)] *)
Definition calculateSubtotal (items : list CartItem.t) : Z :=
  foldl (λ sum item, sum + CartItem.price item * CartItem.quantity item) 0 items.

(** A product as the host wrote it in its configuration, before
    validation: the fields [validateProduct] tests.  A missing string field
    is the empty string, which the tests treat alike. *)
Module ProductInput.
Record t := mk {
  id : string;
  name : string;
  description : string;
  price : Z;
  type : string;
  currency : string
}.
End ProductInput.

(** A word between double quotes. *)
Definition quoted (word : string) : string :=
  String (Ascii.ascii_of_nat 34) word
  +:+ String (Ascii.ascii_of_nat 34) EmptyString.

Definition validateProduct (product : ProductInput.t) : Result unit :=
  if negb (truthy (ProductInput.id product))
  then Err (Thrown "Product ID is required")
  else if negb (truthy (ProductInput.name product))
  then Err (Thrown "Product name is required")
  else if negb (truthy (ProductInput.description product))
  then Err (Thrown "Product description is required")
  else if ProductInput.price product <? 0
  then Err (Thrown "Product price must be a non-negative number")
  else if negb (bool_decide (ProductInput.type product = "digital")
                || bool_decide (ProductInput.type product = "physical"))
  then Err (Thrown ("Product type must be " +:+ quoted "digital" +:+ " or "
                    +:+ quoted "physical"))
  else if negb (truthy (ProductInput.currency product))
  then Err (Thrown "Product currency is required")
  else Ok tt.

(** The configuration as [validateConfig] sees it: the product array if
    there is one, the Stripe secret key if there is a [stripe] object with
    one, and whether [onPurchase] is a function. *)
Module ConfigInput.
Record t := mk {
  products : option (list ProductInput.t);
  secretKey : option string;
  onPurchase : bool
}.
End ConfigInput.

(** [config.products.forEach((product, index) => ...)], from [index] on. *)
Fixpoint validateProducts (index : nat) (products : list ProductInput.t)
  : Result unit :=
  match products with
  | [] => Ok tt
  | product :: rest =>
      match validateProduct product with
      | Err error =>
          Err (Thrown ("Invalid product at index " +:+ pretty index +:+ ": "
                       +:+ message error))
      | Ok _ => validateProducts (S index) rest
      end
  end.

Definition validateConfig (config : ConfigInput.t) : Result unit :=
  match ConfigInput.products config with
  | None => Err (Thrown "Configuration must include a products array")
  | Some [] => Err (Thrown "At least one product is required")
  | Some products =>
      match validateProducts 0 products with
      | Err error => Err error
      | Ok _ =>
          match ConfigInput.secretKey config with
          | None => Err (Thrown "Stripe secret key is required")
          | Some key =>
              if negb (truthy key)
              then Err (Thrown "Stripe secret key is required")
              else if negb (String.prefix "sk_" key)
              then Err (Thrown
                     "Invalid Stripe secret key format (should start with sk_)")
              else if negb (ConfigInput.onPurchase config)
              then Err (Thrown "onPurchase callback is required")
              else Ok tt
          end
      end
  end.

(* ===================================================================== *)
(** ** managers/session.ts *)
(* ===================================================================== *)

(** [items.find(item => item.productId === productId)] *)
Definition find_item (productId : string) (items : list CartItem.t)
  : option CartItem.t :=
  List.find (λ item, bool_decide (CartItem.productId item = productId)) items.

(** Assignment to the [quantity] field of the object returned by
    [find_item]: the first matching element of the array changes. *)
Fixpoint set_found_quantity (productId : string) (f : Z → Z)
    (items : list CartItem.t) : list CartItem.t :=
  match items with
  | [] => []
  | item :: rest =>
      if bool_decide (CartItem.productId item = productId)
      then CartItem.with_quantity (f (CartItem.quantity item)) item :: rest
      else item :: set_found_quantity productId f rest
  end.

Module SessionManager.

Record t := mk {
  sessions : gmap string CheckoutSession.t;
  products : gmap string Product.t;
  sessionTTL : Z
}.

Definition with_sessions (f : gmap string CheckoutSession.t →
                              gmap string CheckoutSession.t) (sm : t) : t :=
  mk (f (sessions sm)) (products sm) (sessionTTL sm).

(** [constructor(products, ttl = 3600)] *)
Definition new (ps : list Product.t) (ttl : option Z) : t :=
  mk ∅
     (foldl (λ m p, <[Product.id p := p]> m) ∅ ps)
     (default 3600 ttl * 1000).

Definition create (now : Z) (rnd : string) : M t CheckoutSession.t :=
  λ sm,
    let session := CheckoutSession.mk
      (generateId "cs_" rnd) SessionStatus.pending []
      None (Totals.mk 0 0 0 0 0 usd) None
      now (now + sessionTTL sm) in
    (Ok session,
     with_sessions (insert (CheckoutSession.id session) session) sm).

Definition get (now : Z) (sessionId : string)
  : M t (option CheckoutSession.t) :=
  λ sm,
    match sessions sm !! sessionId with
    | None => (Ok None, sm)
    | Some session =>
        if CheckoutSession.expiresAt session <? now
        then (Ok None, with_sessions (base.delete sessionId) sm)
        else (Ok (Some session), sm)
    end.

(** [const session = this.get(sessionId); if (!session) throw ...] *)
Definition require (now : Z) (sessionId : string) : M t CheckoutSession.t :=
  do found <- get now sessionId;
  match found with
  | None => throw SessionNotFound
  | Some session => ret session
  end.

(** The session object is the one the map holds under [sessionId]: a
    field assignment on it is a new value under that key. *)
Definition store (sessionId : string) (session : CheckoutSession.t)
  : M t CheckoutSession.t :=
  modify (with_sessions (insert sessionId session)) ;; ret session.

Definition recalculateTotals (session : CheckoutSession.t)
  : CheckoutSession.t :=
  let subtotal := calculateSubtotal (CheckoutSession.items session) in
  let tax := 0 in
  let shipping := 0 in
  let discount := 0 in
  let total := subtotal + tax + shipping - discount in
  let currency :=
    match CheckoutSession.items session with
    | first :: _ => CartItem.currency first
    | [] => usd
    end in
  CheckoutSession.with_totals
    (Totals.mk subtotal tax shipping discount total currency) session.

Definition addItem (now : Z) (sessionId productId : string) (quantity : Z)
  : M t CheckoutSession.t :=
  do session <- require now sessionId;
  λ sm,
    match products sm !! productId with
    | None => (Err (ProductNotFound productId), sm)
    | Some product =>
        if quantity <=? 0 then (Err InvalidQuantity, sm)
        else
          let items := CheckoutSession.items session in
          let items :=
            match find_item productId items with
            | Some _ =>
                set_found_quantity productId (λ q, q + quantity) items
            | None =>
                items ++ [CartItem.mk (Product.id product) quantity
                            (Product.price product)
                            (Product.currency product)
                            (Product.name product)]
            end in
          let session := CheckoutSession.with_items items session in
          let session := recalculateTotals session in
          let session :=
            match CheckoutSession.status session,
                  CheckoutSession.items session with
            | SessionStatus.pending, _ :: _ =>
                CheckoutSession.with_status SessionStatus.ready session
            | _, _ => session
            end in
          store sessionId session sm
    end.

Definition removeItem (now : Z) (sessionId productId : string)
  : M t CheckoutSession.t :=
  do session <- require now sessionId;
  let items :=
    List.filter
      (λ item, negb (bool_decide (CartItem.productId item = productId)))
      (CheckoutSession.items session) in
  let session := CheckoutSession.with_items items session in
  let session := recalculateTotals session in
  let session :=
    match CheckoutSession.items session with
    | [] => CheckoutSession.with_status SessionStatus.pending session
    | _ :: _ => session
    end in
  store sessionId session.

Definition updateQuantity (now : Z) (sessionId productId : string)
    (quantity : Z) : M t CheckoutSession.t :=
  if quantity =? 0 then removeItem now sessionId productId
  else
    do session <- require now sessionId;
    match find_item productId (CheckoutSession.items session) with
    | None => throw ItemNotInCart
    | Some _ =>
        let items :=
          set_found_quantity productId (λ _, quantity)
            (CheckoutSession.items session) in
        let session := CheckoutSession.with_items items session in
        store sessionId (recalculateTotals session)
    end.

Definition setBuyer (now : Z) (sessionId : string) (buyer : BuyerInfo.t)
  : M t CheckoutSession.t :=
  do session <- require now sessionId;
  let session := CheckoutSession.with_buyer buyer session in
  store sessionId (recalculateTotals session).

Definition updateStatus (now : Z) (sessionId : string)
    (status : SessionStatus.t) : M t CheckoutSession.t :=
  do session <- require now sessionId;
  store sessionId (CheckoutSession.with_status status session).

Definition delete (sessionId : string) : M t unit :=
  modify (with_sessions (base.delete sessionId)).

(** The periodic sweep: every entry with [now > expiresAt] is deleted. *)
Definition cleanup (now : Z) : M t unit :=
  modify (with_sessions
            (base.filter (λ kv, ¬ (CheckoutSession.expiresAt kv.2 < now)))).

(** [this.sessions.size] *)
Definition getSessionCount (sm : t) : nat := size (sessions sm).

End SessionManager.

(* ===================================================================== *)
(** ** The payment gateway *)
(* ===================================================================== *)

Module PaymentIntent.
Inductive Status :=
  | succeeded | processing | requires_action | requires_payment_method
  | requires_confirmation | requires_capture | canceled.
Definition status_name (s : Status) : string :=
  match s with
  | succeeded => "succeeded"
  | processing => "processing"
  | requires_action => "requires_action"
  | requires_payment_method => "requires_payment_method"
  | requires_confirmation => "requires_confirmation"
  | requires_capture => "requires_capture"
  | canceled => "canceled"
  end.
Record t := mk {
  id : string;
  status : Status
}.
End PaymentIntent.

Module CardDetails.
Record t := mk {
  number : string;
  exp_month : Z;
  exp_year : Z;
  cvc : string
}.
End CardDetails.

(** [Stripe.Checkout.Session], the fields [createPaymentLink] reads. *)
Module StripeCheckout.
Record t := mk {
  id : string;
  url : string;
  expires_at : Z
}.
End StripeCheckout.

(** The body of a [fetch] response from the granted-tokens endpoint.
    [error_message] is [error.error?.message] when that is a non-empty
    string, and absent otherwise. *)
Inductive Response :=
  | response_ok (id : string)
  | response_not_ok (error_message : option string).

(** The answers of the Stripe SDK and of [fetch], one field per remote
    call the payment manager makes.  An [Err] is the exception the call
    raises; [StripeError msg] is an instance of [Stripe.errors.StripeError]. *)
Module Stripe.
Record t := mk {
  paymentIntents_create : CheckoutSession.t → Result PaymentIntent.t;
  paymentIntents_confirm : string → string → Result PaymentIntent.t;
  paymentIntents_cancel : string → Result PaymentIntent.t;
  paymentMethods_create : CardDetails.t → Result string;
  checkout_sessions_create :
    CheckoutSession.t → option string → option string → Z →
    Result StripeCheckout.t;
  fetch_granted_tokens : string → Currency → Z → Z → Result Response
}.
End Stripe.

(** What leaves the process: the requests sent to the gateway and the
    invocations of the fulfillment callback, oldest first. *)
Inductive Effect :=
  | PaymentIntentCreate (sessionId : string) (amount : Z) (currency : Currency)
  | PaymentIntentConfirm (paymentIntentId spt : string)
  | PaymentIntentCancel (paymentIntentId : string)
  | PaymentMethodCreate (card : CardDetails.t)
  | CheckoutSessionCreate (sessionId : string)
  | GrantedTokenRequest (paymentMethodId : string) (max_amount : Z)
  | OnPurchase (order : Order.t).

Definition emit (e : Effect) : M (list Effect) unit := modify (λ log, log ++ [e]).

(* ===================================================================== *)
(** ** managers/payment.ts *)
(* ===================================================================== *)

Module PaymentManager.

Definition buyer_email (session : CheckoutSession.t) : option string :=
  b ← CheckoutSession.buyer session;
  if truthy (BuyerInfo.email b) then Some (BuyerInfo.email b) else None.

(** [session.payment?.stripePaymentIntentId], when truthy. *)
Definition existingPaymentIntent (session : CheckoutSession.t) : option string :=
  p ← CheckoutSession.payment session;
  id ← PaymentInfo.stripePaymentIntentId p;
  if truthy id then Some id else None.

Definition createPaymentIntent (stripe : Stripe.t)
    (session : CheckoutSession.t) : M (list Effect) PaymentIntent.t :=
  match CheckoutSession.items session with
  | [] => throw (EmptyCart "Cannot create payment for empty cart")
  | _ :: _ =>
      if Totals.total (CheckoutSession.totals session) <=? 0
      then throw TotalNotPositive
      else
        emit (PaymentIntentCreate (CheckoutSession.id session)
                (Totals.total (CheckoutSession.totals session))
                (Totals.currency (CheckoutSession.totals session))) ;;
        of_result (Stripe.paymentIntents_create stripe session)
  end.

(** The [input] object of [createSharedPaymentToken]. *)
Record TokenInput := mkTokenInput {
  paymentMethodId : option string;
  cardDetails : option CardDetails.t
}.

Definition createSharedPaymentToken (stripe : Stripe.t) (now : Z)
    (session : CheckoutSession.t) (input : TokenInput)
  : M (list Effect) string :=
  catch
    (do pm <-
       match paymentMethodId input, cardDetails input with
       | Some id, card =>
           if truthy id then ret id
           else match card with
                | Some card =>
                    emit (PaymentMethodCreate card) ;;
                    of_result (Stripe.paymentMethods_create stripe card)
                | None => throw MissingPaymentMethod
                end
       | None, Some card =>
           emit (PaymentMethodCreate card) ;;
           of_result (Stripe.paymentMethods_create stripe card)
       | None, None => throw MissingPaymentMethod
       end;
     let currency := Totals.currency (CheckoutSession.totals session) in
     let max_amount := Totals.total (CheckoutSession.totals session) in
     let expires_at := now `div` 1000 + 30 * 60 in
     emit (GrantedTokenRequest pm max_amount) ;;
     do response <-
       of_result
         (Stripe.fetch_granted_tokens stripe pm currency max_amount expires_at);
     match response with
     | response_not_ok msg =>
         throw (StripeApiError (default "Unknown error" msg))
     | response_ok id => ret id
     end)
    (λ error,
       match error with
       | StripeError msg => throw (TokenFailed msg)
       | _ => throw error
       end).

Definition createCheckoutSession (stripe : Stripe.t) (now : Z)
    (session : CheckoutSession.t) (successUrl cancelUrl : option string)
  : M (list Effect) StripeCheckout.t :=
  match CheckoutSession.items session with
  | [] => throw (EmptyCart "Cannot create checkout for empty cart")
  | _ :: _ =>
      match buyer_email session with
      | None => throw (MissingBuyerInfo "Buyer email is required for checkout")
      | Some _ =>
          emit (CheckoutSessionCreate (CheckoutSession.id session)) ;;
          of_result
            (Stripe.checkout_sessions_create stripe session
               successUrl cancelUrl (now `div` 1000 + 3600))
      end
  end.

Definition processSharedPaymentToken (stripe : Stripe.t)
    (session : CheckoutSession.t) (spt : string)
  : M (list Effect) PaymentIntent.t :=
  do paymentIntentId <-
    match existingPaymentIntent session with
    | Some id => ret id
    | None =>
        do pi <- createPaymentIntent stripe session;
        ret (PaymentIntent.id pi)
    end;
  catch
    (emit (PaymentIntentConfirm paymentIntentId spt) ;;
     of_result (Stripe.paymentIntents_confirm stripe paymentIntentId spt))
    (λ error,
       match error with
       | StripeError msg => throw (PaymentFailed msg)
       | _ => throw error
       end).

(** [items: [...session.items]] copies the array, not the item objects; the
    order below holds the items as they are when it is built.  No property
    in this file reads an order after a later edit of the session's cart. *)
Definition createOrderFromSession (rnd : string) (now_paidAt now_createdAt : Z)
    (session : CheckoutSession.t) (paymentIntent : PaymentIntent.t)
  : Result Order.t :=
  match CheckoutSession.buyer session with
  | None => Err BuyerRequired
  | Some buyer =>
      match PaymentIntent.status paymentIntent with
      | PaymentIntent.succeeded =>
          Ok (Order.mk
                (generateId "ord_" rnd)
                (CheckoutSession.id session)
                (CheckoutSession.items session)
                buyer
                (CheckoutSession.totals session)
                (OrderPayment.mk (PaymentIntent.id paymentIntent) now_paidAt)
                OrderStatus.pending
                now_createdAt)
      | _ => Err PaymentNotSucceeded
      end
  end.

Definition cancelPaymentIntent (stripe : Stripe.t) (paymentIntentId : string)
  : M (list Effect) PaymentIntent.t :=
  emit (PaymentIntentCancel paymentIntentId) ;;
  of_result (Stripe.paymentIntents_cancel stripe paymentIntentId).

End PaymentManager.

(* ===================================================================== *)
(** ** index.ts *)
(* ===================================================================== *)

Module CommerceTools.

(** The mutable state behind a [CommerceTools] instance, together with
    the record of what it has sent out. *)
Record t := mk {
  sessionManager : SessionManager.t;
  orders : gmap string Order.t;
  effects : list Effect
}.

(** [config.onPurchase] and the Stripe client of the payment manager. *)
Record Config := mkConfig {
  stripe : Stripe.t;
  onPurchase : Order.t → Result unit
}.

(** [constructor(config)], after [validateConfig]. *)
Definition new (ps : list Product.t) (ttl : option Z) : t :=
  mk (SessionManager.new ps ttl) ∅ [].

Definition onSessions {A} (m : M SessionManager.t A) : M t A :=
  λ w, let '(r, sm) := m (sessionManager w) in
       (r, mk sm (orders w) (effects w)).

Definition onPayments {A} (m : M (list Effect) A) : M t A :=
  λ w, let '(r, log) := m (effects w) in
       (r, mk (sessionManager w) (orders w) log).

Definition createSession (now : Z) (rnd : string) : M t CheckoutSession.t :=
  onSessions (SessionManager.create now rnd).

Definition getSession (now : Z) (sessionId : string)
  : M t (option CheckoutSession.t) :=
  onSessions (SessionManager.get now sessionId).

(** [if (!sessionId) { sessionId = this.sessionManager.create().id }]:
    [now_create] and [rnd] are what [create] reads when it runs. *)
Definition resolveSession (now_create : Z) (rnd : string)
    (sessionId : option string) : M t string :=
  match sessionId with
  | Some id =>
      if truthy id then ret id
      else
        do newSession <- onSessions (SessionManager.create now_create rnd);
        ret (CheckoutSession.id newSession)
  | None =>
      do newSession <- onSessions (SessionManager.create now_create rnd);
      ret (CheckoutSession.id newSession)
  end.

Definition addToCart (now_create : Z) (rnd : string) (now : Z)
    (sessionId : option string) (productId : string) (quantity : option Z)
  : M t CheckoutSession.t :=
  do sessionId <- resolveSession now_create rnd sessionId;
  onSessions (SessionManager.addItem now sessionId productId (default 1 quantity)).

Definition removeFromCart (now : Z) (sessionId productId : string)
  : M t CheckoutSession.t :=
  onSessions (SessionManager.removeItem now sessionId productId).

Definition updateQuantity (now : Z) (sessionId productId : string)
    (quantity : Z) : M t CheckoutSession.t :=
  onSessions (SessionManager.updateQuantity now sessionId productId quantity).

Definition setBuyer (now_create : Z) (rnd : string) (now : Z)
    (sessionId : option string) (buyer : BuyerInfo.t)
  : M t CheckoutSession.t :=
  do sessionId <- resolveSession now_create rnd sessionId;
  onSessions (SessionManager.setBuyer now sessionId buyer).

Definition requireSession (now : Z) (sessionId : string)
  : M t CheckoutSession.t :=
  onSessions (SessionManager.require now sessionId).

(** The optional card arguments of [createPaymentToken]. *)
Record CardArgs := mkCardArgs {
  cardNumber : option string;
  expMonth : option Z;
  expYear : option Z;
  cvc : option string
}.

(** [(cardNumber && expMonth && expYear && cvc) ? {...} : undefined] *)
Definition cardDetailsOf (a : CardArgs) : option CardDetails.t :=
  match cardNumber a, expMonth a, expYear a, cvc a with
  | Some n, Some m, Some y, Some c =>
      if truthy n && negb (m =? 0) && negb (y =? 0) && truthy c
      then Some (CardDetails.mk n m y c) else None
  | _, _, _, _ => None
  end.

Definition createPaymentToken (cfg : Config) (now now_token : Z)
    (sessionId : string) (paymentMethodId : option string) (card : CardArgs)
  : M t string :=
  do session <- requireSession now sessionId;
  match CheckoutSession.items session with
  | [] => throw (EmptyCart "Cannot create payment token for empty cart")
  | _ :: _ =>
      if Totals.total (CheckoutSession.totals session) <=? 0
      then throw TotalNotPositive
      else
        onPayments
          (PaymentManager.createSharedPaymentToken (stripe cfg) now_token
             session
             (PaymentManager.mkTokenInput paymentMethodId (cardDetailsOf card)))
  end.

Record PaymentLink := mkPaymentLink {
  url : string;
  expiresAt : Z;
  stripeSessionId : string
}.

Definition createPaymentLink (cfg : Config) (now now_link : Z)
    (sessionId : string) (successUrl cancelUrl : option string)
  : M t PaymentLink :=
  do session <- requireSession now sessionId;
  match CheckoutSession.items session with
  | [] => throw (EmptyCart "Cannot create payment link for empty cart")
  | _ :: _ =>
      match PaymentManager.buyer_email session with
      | None => throw (MissingBuyerInfo "Buyer email is required")
      | Some _ =>
          do stripeSession <-
            onPayments
              (PaymentManager.createCheckoutSession (stripe cfg) now_link
                 session successUrl cancelUrl);
          ret (mkPaymentLink
                 (StripeCheckout.url stripeSession)
                 (StripeCheckout.expires_at stripeSession * 1000)
                 (StripeCheckout.id stripeSession))
      end
  end.

(** The values [completeCheckout] reads from the clock and the random
    source, in the order of the statements that read them. *)
Record Readings := mkReadings {
  now_get : Z;
  now_processing : Z;
  order_rnd : string;
  now_paidAt : Z;
  now_createdAt : Z;
  now_completed : Z;
  now_failed : Z
}.

Definition storeOrder (order : Order.t) : M t unit :=
  modify (λ w, mk (sessionManager w)
                  (<[Order.id order := order]> (orders w))
                  (effects w)).

(** [updateStatus] returns the session object it assigned to, which is the
    object [session] already names; the rebinding below follows that
    object.  The statements inside [catch (...)] are the [try] block. *)
Definition completeCheckout (cfg : Config) (r : Readings)
    (sessionId sharedPaymentToken : string) : M t Order.t :=
  do session <- requireSession (now_get r) sessionId;
  match CheckoutSession.items session with
  | [] => throw (EmptyCart "Cannot checkout with empty cart")
  | _ :: _ =>
      match PaymentManager.buyer_email session with
      | None => throw (MissingBuyerInfo "Buyer email is required")
      | Some _ =>
          do session <-
            onSessions
              (SessionManager.updateStatus (now_processing r) sessionId
                 SessionStatus.processing);
          catch
            (do paymentIntent <-
               onPayments
                 (PaymentManager.processSharedPaymentToken (stripe cfg)
                    session sharedPaymentToken);
             match PaymentIntent.status paymentIntent with
             | PaymentIntent.succeeded =>
                 do order <-
                   of_result
                     (PaymentManager.createOrderFromSession (order_rnd r)
                        (now_paidAt r) (now_createdAt r) session paymentIntent);
                 storeOrder order ;;
                 onSessions
                   (SessionManager.updateStatus (now_completed r) sessionId
                      SessionStatus.completed) ;;
                 onPayments (emit (OnPurchase order)) ;;
                 of_result (onPurchase cfg order) ;;
                 ret order
             | status =>
                 throw (PaymentFailed (PaymentIntent.status_name status))
             end)
            (λ error,
               onSessions
                 (SessionManager.updateStatus (now_failed r) sessionId
                    SessionStatus.failed) ;;
               throw error)
      end
  end.

Definition cancelCheckout (cfg : Config) (now now_update : Z)
    (sessionId : string) : M t unit :=
  do session <- requireSession now sessionId;
  match PaymentManager.existingPaymentIntent session with
  | Some id => onPayments (PaymentManager.cancelPaymentIntent (stripe cfg) id) ;; ret tt
  | None => ret tt
  end ;;
  onSessions
    (SessionManager.updateStatus now_update sessionId SessionStatus.cancelled) ;;
  ret tt.

(** [this.orders.get(orderId) || null] *)
Definition getOrder (orderId : string) (w : t) : option Order.t :=
  orders w !! orderId.

(** [this.config.products.find(p => p.id === productId) || null], on the
    configured product array. *)
Definition getProduct (products : list Product.t) (productId : string)
  : option Product.t :=
  List.find (λ p, bool_decide (Product.id p = productId)) products.

End CommerceTools.

(* ===================================================================== *)
(** ** Specification vocabulary *)
(* ===================================================================== *)




(** The session stored under an id, whatever its expiry. *)
Definition stored (w : CommerceTools.t) (sessionId : string)
  : option CheckoutSession.t :=
  SessionManager.sessions (CommerceTools.sessionManager w) !! sessionId.

(** A session is live at [now] when [now > expiresAt] is false. *)
Definition live (now : Z) (s : CheckoutSession.t) : Prop :=
  now ≤ CheckoutSession.expiresAt s.

(** The calls open to the host application and to the agent: the public
    methods of [CommerceTools], the methods of the session manager it hands
    out through [getSessionManager()], the periodic sweep, and a change of
    the catalog entries by the host. *)
Inductive Op :=
  | createSession (now : Z) (rnd : string)
  | getSession (now : Z) (sessionId : string)
  | addToCart (now_create : Z) (rnd : string) (now : Z)
      (sessionId : option string) (productId : string) (quantity : option Z)
  | removeFromCart (now : Z) (sessionId productId : string)
  | updateQuantity (now : Z) (sessionId productId : string) (quantity : Z)
  | setBuyer (now_create : Z) (rnd : string) (now : Z)
      (sessionId : option string) (buyer : BuyerInfo.t)
  | createPaymentToken (cfg : CommerceTools.Config) (now now_token : Z)
      (sessionId : string) (paymentMethodId : option string)
      (card : CommerceTools.CardArgs)
  | createPaymentLink (cfg : CommerceTools.Config) (now now_link : Z)
      (sessionId : string) (successUrl cancelUrl : option string)
  | completeCheckout (cfg : CommerceTools.Config) (r : CommerceTools.Readings)
      (sessionId sharedPaymentToken : string)
  | cancelCheckout (cfg : CommerceTools.Config) (now now_update : Z)
      (sessionId : string)
  | updateStatus (now : Z) (sessionId : string) (status : SessionStatus.t)
  | deleteSession (sessionId : string)
  | cleanup (now : Z)
  | setCatalog (products : gmap string Product.t).

(** Forget the value a call returns, keep its effect on the state. *)
Definition after {A} (m : M CommerceTools.t A) (w : CommerceTools.t)
  : CommerceTools.t := (m w).2.

Definition step (w : CommerceTools.t) (op : Op) : CommerceTools.t :=
  match op with
  | createSession now rnd => after (CommerceTools.createSession now rnd) w
  | getSession now id => after (CommerceTools.getSession now id) w
  | addToCart nc rnd now id p q =>
      after (CommerceTools.addToCart nc rnd now id p q) w
  | removeFromCart now id p => after (CommerceTools.removeFromCart now id p) w
  | updateQuantity now id p q =>
      after (CommerceTools.updateQuantity now id p q) w
  | setBuyer nc rnd now id b => after (CommerceTools.setBuyer nc rnd now id b) w
  | createPaymentToken cfg now nt id pm card =>
      after (CommerceTools.createPaymentToken cfg now nt id pm card) w
  | createPaymentLink cfg now nl id s c =>
      after (CommerceTools.createPaymentLink cfg now nl id s c) w
  | completeCheckout cfg r id spt =>
      after (CommerceTools.completeCheckout cfg r id spt) w
  | cancelCheckout cfg now nu id =>
      after (CommerceTools.cancelCheckout cfg now nu id) w
  | updateStatus now id st =>
      after (CommerceTools.onSessions (SessionManager.updateStatus now id st)) w
  | deleteSession id =>
      after (CommerceTools.onSessions (SessionManager.delete id)) w
  | cleanup now => after (CommerceTools.onSessions (SessionManager.cleanup now)) w
  | setCatalog ps =>
      CommerceTools.mk
        (SessionManager.mk
           (SessionManager.sessions (CommerceTools.sessionManager w))
           ps
           (SessionManager.sessionTTL (CommerceTools.sessionManager w)))
        (CommerceTools.orders w) (CommerceTools.effects w)
  end.

Definition run (ops : list Op) (w : CommerceTools.t) : CommerceTools.t :=
  foldl step w ops.


(** The state with [es] appended to the record of what was sent out. *)
Definition sent (es : list Effect) (w : CommerceTools.t) : CommerceTools.t :=
  CommerceTools.mk (CommerceTools.sessionManager w) (CommerceTools.orders w)
    (CommerceTools.effects w ++ es).

(** The state with [order] stored under its id. *)
Definition filed (order : Order.t) (w : CommerceTools.t) : CommerceTools.t :=
  CommerceTools.mk (CommerceTools.sessionManager w)
    (<[Order.id order := order]> (CommerceTools.orders w))
    (CommerceTools.effects w).

(** The order [createOrderFromSession] builds for session [s] with buyer
    [b] once the payment intent [pi] has succeeded. *)
Definition orderOf (r : CommerceTools.Readings) (s : CheckoutSession.t)
    (b : BuyerInfo.t) (pi : PaymentIntent.t) : Order.t :=
  Order.mk
    (generateId "ord_" (CommerceTools.order_rnd r))
    (CheckoutSession.id s) (CheckoutSession.items s) b
    (CheckoutSession.totals s)
    (OrderPayment.mk (PaymentIntent.id pi) (CommerceTools.now_paidAt r))
    OrderStatus.pending (CommerceTools.now_createdAt r).

(** The two gateway requests of a token payment on a session without a
    payment intent: create the intent for the session's total, confirm it
    with the token. *)
Definition charge (s : CheckoutSession.t) (created : PaymentIntent.t)
    (spt : string) : list Effect :=
  [PaymentIntentCreate (CheckoutSession.id s)
     (Totals.total (CheckoutSession.totals s))
     (Totals.currency (CheckoutSession.totals s));
   PaymentIntentConfirm (PaymentIntent.id created) spt].

(** The state once the charge went through, the order was filed, the
    session was given [status] and the callback was invoked. *)
Definition settled (status : SessionStatus.t) (sessionId : string)
    (s : CheckoutSession.t) (created : PaymentIntent.t) (spt : string)
    (order : Order.t) (w : CommerceTools.t) : CommerceTools.t :=
  CommerceTools.mk
    (SessionManager.with_sessions
       (insert sessionId (CheckoutSession.with_status status s))
       (CommerceTools.sessionManager w))
    (<[Order.id order := order]> (CommerceTools.orders w))
    (CommerceTools.effects w ++ charge s created spt ++ [OnPurchase order]).

(** The value a call returned, if it returned. *)
Definition value {A} (r : Result A) : option A :=
  match r with
  | Ok a => Some a
  | Err _ => None
  end.

(** The error a call threw, if it threw. *)
Definition thrown {A} (r : Result A) : option Error :=
  match r with
  | Ok _ => None
  | Err e => Some e
  end.

(** What [removeItem] leaves of a session that does not hold the product:
    the totals are recomputed from the same items, and an empty cart puts
    the status back to [pending]. *)
Definition refreshed (s : CheckoutSession.t) : CheckoutSession.t :=
  match CheckoutSession.items s with
  | [] =>
      CheckoutSession.with_status SessionStatus.pending
        (SessionManager.recalculateTotals s)
  | _ :: _ => SessionManager.recalculateTotals s
  end.

(** The session [create] stores at clock reading [now] with random part
    [rnd]. *)
Definition fresh (now : Z) (rnd : string) (w : CommerceTools.t)
  : CheckoutSession.t :=
  CheckoutSession.mk (generateId "cs_" rnd) SessionStatus.pending [] None
    (Totals.mk 0 0 0 0 0 usd) None now
    (now + SessionManager.sessionTTL (CommerceTools.sessionManager w)).


(** The state with the entry of [sessionId] deleted from the session map. *)
Definition evict (sessionId : string) (w : CommerceTools.t) : CommerceTools.t :=
  CommerceTools.mk
    (SessionManager.with_sessions (base.delete sessionId)
       (CommerceTools.sessionManager w))
    (CommerceTools.orders w) (CommerceTools.effects w).

(** The state with [s] stored under [sessionId]. *)
Definition put (sessionId : string) (s : CheckoutSession.t)
    (w : CommerceTools.t) : CommerceTools.t :=
  CommerceTools.mk
    (SessionManager.with_sessions (insert sessionId s)
       (CommerceTools.sessionManager w))
    (CommerceTools.orders w) (CommerceTools.effects w).

(** [triple I m Q]: from a state satisfying [I], the call [m] leaves a
    state satisfying [I] whether it returns or throws, and a returned value
    satisfies [Q]. *)
Definition triple {S A} (I : S → Prop) (m : M S A) (Q : A → Prop) : Prop :=
  ∀ s, I s → I (m s).2 ∧ ∀ a, (m s).1 = Ok a → Q a.

Definition anything {A} : A → Prop := λ _, True.

(** The item list [addItem] leaves: the quantity added to the item the cart
    holds for the product, or a new item appended with the catalog's price,
    currency and name. *)
Definition added (productId : string) (quantity : Z) (product : Product.t)
    (items : list CartItem.t) : list CartItem.t :=
  match find_item productId items with
  | Some _ => set_found_quantity productId (λ q, q + quantity) items
  | None =>
      items ++ [CartItem.mk (Product.id product) quantity
                  (Product.price product) (Product.currency product)
                  (Product.name product)]
  end.


(** The demotion at the end of [removeItem]: an empty cart becomes
    [pending]. *)
Definition demoted (s : CheckoutSession.t) : CheckoutSession.t :=
  match CheckoutSession.items s with
  | [] => CheckoutSession.with_status SessionStatus.pending s
  | _ :: _ => s
  end.

(** The item list without the items of a product. *)
Definition without (productId : string) (items : list CartItem.t)
  : list CartItem.t :=
  List.filter
    (λ item, negb (bool_decide (CartItem.productId item = productId))) items.



(** A catalog map whose keys are the ids of its products, as the
    constructor builds it. *)
Definition keyed (catalog : gmap string Product.t) : Prop :=
  ∀ k p, catalog !! k = Some p → Product.id p = k.

(** The only operation that changes the catalog respects [K]. *)
Definition catalog_op (K : gmap string Product.t → Prop) (op : Op) : Prop :=
  match op with
  | setCatalog ps => K ps
  | _ => True
  end.

(** The session manager has TTL [ttl], a catalog satisfying [K], and every
    session it stores under a key [k] satisfies [P k]. *)
Definition manager_satisfies (ttl : Z) (K : gmap string Product.t → Prop)
    (P : string → CheckoutSession.t → Prop) (sm : SessionManager.t) : Prop :=
  SessionManager.sessionTTL sm = ttl
  ∧ K (SessionManager.products sm)
  ∧ map_Forall P (SessionManager.sessions sm).

Definition shop_satisfies (ttl : Z) (K : gmap string Product.t → Prop)
    (P : string → CheckoutSession.t → Prop) (w : CommerceTools.t) : Prop :=
  manager_satisfies ttl K P (CommerceTools.sessionManager w).

(** The product ids of a cart, in order. *)
Definition product_ids (items : list CartItem.t) : list string :=
  map CartItem.productId items.

(** The currency [recalculateTotals] writes for an item list. *)
Definition cart_currency (items : list CartItem.t) : Currency :=
  match items with
  | first :: _ => CartItem.currency first
  | [] => usd
  end.

(** The operations that talk to the gateway. *)
Definition touches_gateway (op : Op) : bool :=
  match op with
  | createPaymentToken _ _ _ _ _ _ | createPaymentLink _ _ _ _ _ _
  | completeCheckout _ _ _ _ | cancelCheckout _ _ _ _ => true
  | _ => false
  end.



(** The session has no usable buyer email: no buyer, or an empty email. *)
Definition no_buyer_email (s : CheckoutSession.t) : Prop :=
  CheckoutSession.buyer s = None
  ∨ ∃ b, CheckoutSession.buyer s = Some b ∧ BuyerInfo.email b = "".

(** The state a failed token payment leaves once the charge was sent: the
    session [failed], no order filed, the callback not invoked. *)
Definition declined (sessionId : string) (s : CheckoutSession.t)
    (created : PaymentIntent.t) (spt : string) (w : CommerceTools.t)
  : CommerceTools.t :=
  sent (charge s created spt)
    (put sessionId (CheckoutSession.with_status SessionStatus.failed s) w).

(** The state left when the session expires while the gateway answers:
    the charge sent, the order filed, the session evicted. *)
Definition orphaned (sessionId : string) (s : CheckoutSession.t)
    (created : PaymentIntent.t) (spt : string) (order : Order.t)
    (w : CommerceTools.t) : CommerceTools.t :=
  CommerceTools.mk
    (SessionManager.with_sessions (base.delete sessionId)
       (CommerceTools.sessionManager w))
    (<[Order.id order := order]> (CommerceTools.orders w))
    (CommerceTools.effects w ++ charge s created spt).

(** How [createSharedPaymentToken] reports the answer of the granted-token
    endpoint. *)
Definition token_outcome (answer : Result Response) : Result string :=
  match answer with
  | Ok (response_ok id) => Ok id
  | Ok (response_not_ok msg) =>
      Err (StripeApiError (default "Unknown error" msg))
  | Err (StripeError msg) => Err (TokenFailed msg)
  | Err e => Err e
  end.

(** What [validateProduct] accepts. *)
Definition valid_product (p : ProductInput.t) : Prop :=
  ProductInput.id p ≠ ""
  ∧ ProductInput.name p ≠ ""
  ∧ ProductInput.description p ≠ ""
  ∧ 0 ≤ ProductInput.price p
  ∧ (ProductInput.type p = "digital" ∨ ProductInput.type p = "physical")
  ∧ ProductInput.currency p ≠ "".

(** A session-manager call that, when it returns a session, has stored
    that session under [sessionId]. *)
Definition returns_stored (sessionId : string)
    (m : M SessionManager.t CheckoutSession.t) : Prop :=
  ∀ sm s' sm', m sm = (Ok s', sm') →
    SessionManager.sessions sm' !! sessionId = Some s'.

(* ===================================================================== *)
(** ** Sample data *)
(* ===================================================================== *)

Definition book : Product.t := Product.mk "test-1" "Test Product 1" 1999 usd.
Definition course : Product.t := Product.mk "test-2" "Test Product 2" 2999 usd.

Definition shop : CommerceTools.t := CommerceTools.new [book; course] None.

Definition alice : BuyerInfo.t := BuyerInfo.mk "test@example.com" (Some "Test User").

(** A gateway that accepts every request. *)
Definition accepting : Stripe.t :=
  Stripe.mk
    (λ s, Ok (PaymentIntent.mk ("pi_" +:+ CheckoutSession.id s)
                PaymentIntent.requires_payment_method))
    (λ id _, Ok (PaymentIntent.mk id PaymentIntent.succeeded))
    (λ id, Ok (PaymentIntent.mk id PaymentIntent.canceled))
    (λ _, Ok "pm_1")
    (λ s _ _ expires,
       Ok (StripeCheckout.mk ("sc_" +:+ CheckoutSession.id s)
             "https://checkout.stripe.com/c/pay" expires))
    (λ _ _ _ _, Ok (response_ok "spt_1")).

Definition fulfilling : CommerceTools.Config :=
  CommerceTools.mkConfig accepting (λ _, Ok tt).

Definition failing_hook : CommerceTools.Config :=
  CommerceTools.mkConfig accepting (λ _, Err (Thrown "fulfillment failed")).

(** All clock readings of one call at the same instant. *)
Definition at_time (now : Z) (rnd : string) : CommerceTools.Readings :=
  CommerceTools.mkReadings now now rnd now now now now.

(** A session holding two books and the buyer's details. *)
Definition cart_A : CommerceTools.t :=
  run [addToCart 0 "A" 0 None "test-1" (Some 2);
       setBuyer 0 "B" 0 (Some "cs_A") alice] shop.

(** The catalog after the host has repriced the book. *)
Definition repriced : gmap string Product.t :=
  <["test-1" := Product.mk "test-1" "Test Product 1" 2499 eur]>
    (SessionManager.products (CommerceTools.sessionManager shop)).


(** [cart_A] after a token payment that went through. *)
Definition paid_A : CommerceTools.t :=
  run [completeCheckout fulfilling (at_time 5 "X") "cs_A" "spt_1"] cart_A.

(** [cart_A] with a payment under way: the status [completeCheckout] sets
    before it waits for the gateway, here set through the session manager
    that [getSessionManager()] hands out. *)
Definition processing_A : CommerceTools.t :=
  run [updateStatus 1 "cs_A" SessionStatus.processing] cart_A.

(** A shop configured with a negative session TTL. *)
Definition short_lived : CommerceTools.t :=
  CommerceTools.new [book; course] (Some (-1)).

(** An empty session that was cancelled. *)
Definition cancelled_empty : CommerceTools.t :=
  run [createSession 0 "A"; cancelCheckout fulfilling 1 1 "cs_A"] shop.


(** The session manager of [cart_A] and the session it holds. *)
Definition manager_A : SessionManager.t := CommerceTools.sessionManager cart_A.

Definition session_A : CheckoutSession.t :=
  CheckoutSession.mk "cs_A" SessionStatus.ready
    [CartItem.mk "test-1" 2 1999 usd "Test Product 1"]
    (Some alice) (Totals.mk 3998 0 0 0 3998 usd) None 0 3600000.

(** A gateway that creates payment intents and declines every token. *)
Definition declining : Stripe.t :=
  Stripe.mk
    (Stripe.paymentIntents_create accepting)
    (λ _ _, Err (StripeError "Your card was declined."))
    (Stripe.paymentIntents_cancel accepting)
    (Stripe.paymentMethods_create accepting)
    (Stripe.checkout_sessions_create accepting)
    (Stripe.fetch_granted_tokens accepting).

Definition with_declining : CommerceTools.Config :=
  CommerceTools.mkConfig declining (λ _, Ok tt).

(** A catalog with a free sample, and a session holding one. *)
Definition sample : Product.t := Product.mk "free-1" "Free Sample" 0 usd.

Definition cart_free : CommerceTools.t :=
  run [addToCart 0 "A" 0 None "free-1" (Some 1);
       setBuyer 0 "B" 0 (Some "cs_A") alice]
    (CommerceTools.new [book; sample] None).

Definition session_free : CheckoutSession.t :=
  CheckoutSession.mk "cs_A" SessionStatus.ready
    [CartItem.mk "free-1" 1 0 usd "Free Sample"]
    (Some alice) (Totals.mk 0 0 0 0 0 usd) None 0 3600000.

Definition ebook : ProductInput.t :=
  ProductInput.mk "ebook-basics" "MCP Basics Guide"
    "Learn the fundamentals of building MCP servers" 1999 "digital" "usd".

Definition mispriced : ProductInput.t :=
  ProductInput.mk "template-starter" "MCP Server Starter Template"
    "Production-ready MCP server template" (-4900) "digital" "usd".

(* ===================================================================== *)
(** ** Reasoning about methods *)
(* ===================================================================== *)

Section Triples.
Context {S : Type} (I : S → Prop).

Lemma triple_ret {A} (a : A) (Q : A → Prop) : Q a → triple I (ret a) Q.
Proof. intros Ha s Hs; split; [exact Hs|]. intros b [= <-]. exact Ha. Qed.

Lemma triple_throw {A} (e : Error) (Q : A → Prop) : triple I (throw e) Q.
Proof. intros s Hs; split; [exact Hs|]. intros b Hb. discriminate Hb. Qed.

Lemma triple_of_result {A} (r : Result A) (Q : A → Prop) :
  (∀ a, r = Ok a → Q a) → triple I (of_result r) Q.
Proof. intros Hr s Hs; split; [exact Hs|]. exact Hr. Qed.

Lemma triple_modify (f : S → S) (Q : unit → Prop) :
  (∀ s, I s → I (f s)) → Q tt → triple I (modify f) Q.
Proof.
  intros Hf Hq s Hs; split; [apply Hf, Hs|]. intros [] _. exact Hq.
Qed.

Lemma triple_bind {A B} (m : M S A) (k : A → M S B)
    (Q : A → Prop) (R : B → Prop) :
  triple I m Q → (∀ a, Q a → triple I (k a) R) → triple I (bind m k) R.
Proof.
  intros Hm Hk s Hs. unfold bind.
  destruct (Hm s Hs) as [Hi Hq]. destruct (m s) as [[a|e] s']; simpl in *.
  - apply (Hk a); [apply Hq; reflexivity | exact Hi].
  - split; [exact Hi | intros b Hb; discriminate Hb].
Qed.

Lemma triple_catch {A} (m : M S A) (h : Error → M S A) (Q : A → Prop) :
  triple I m Q → (∀ e, triple I (h e) Q) → triple I (catch m h) Q.
Proof.
  intros Hm Hh s Hs. unfold catch.
  destruct (Hm s Hs) as [Hi Hq]. destruct (m s) as [[a|e] s']; simpl in *.
  - split; [exact Hi | exact Hq].
  - apply (Hh e), Hi.
Qed.
End Triples.

(* ===================================================================== *)
(** ** Totals *)
(* ===================================================================== *)




Lemma recalculateTotals_items (s : CheckoutSession.t) :
  CheckoutSession.items (SessionManager.recalculateTotals s)
  = CheckoutSession.items s.
Proof. reflexivity. Qed.


Section SessionManagerTotals.
Import SessionManager.











End SessionManagerTotals.

Section CommerceToolsTotals.
Import CommerceTools.












End CommerceToolsTotals.







(* ===================================================================== *)
(** ** Running a method step by step *)
(* ===================================================================== *)

Lemma bind_ok {S A B} (m : M S A) (k : A → M S B) s a s' :
  m s = (Ok a, s') → bind m k s = k a s'.
Proof. intros H. unfold bind. rewrite H. reflexivity. Qed.

Lemma bind_err {S A B} (m : M S A) (k : A → M S B) s e s' :
  m s = (Err e, s') → bind m k s = (Err e, s').
Proof. intros H. unfold bind. rewrite H. reflexivity. Qed.

Lemma bind_same {S A B} (m m' : M S A) (k : A → M S B) s s' :
  m s = m' s' → bind m k s = bind m' k s'.
Proof. intros H. unfold bind. rewrite H. reflexivity. Qed.

Lemma catch_err {S A} (m : M S A) (h : Error → M S A) s e s' :
  m s = (Err e, s') → catch m h s = h e s'.
Proof. intros H. unfold catch. rewrite H. reflexivity. Qed.

Lemma catch_same {S A} (m m' : M S A) (h : Error → M S A) s s' :
  m s = m' s' → catch m h s = catch m' h s'.
Proof. intros H. unfold catch. rewrite H. reflexivity. Qed.

Lemma onSessions_run {A} (m : M SessionManager.t A) w r sm :
  m (CommerceTools.sessionManager w) = (r, sm) →
  CommerceTools.onSessions m w
  = (r, CommerceTools.mk sm (CommerceTools.orders w) (CommerceTools.effects w)).
Proof. intros H. unfold CommerceTools.onSessions. rewrite H. reflexivity. Qed.

Lemma onPayments_run {A} (m : M (list Effect) A) w r log :
  m (CommerceTools.effects w) = (r, log) →
  CommerceTools.onPayments m w
  = (r, CommerceTools.mk (CommerceTools.sessionManager w)
          (CommerceTools.orders w) log).
Proof. intros H. unfold CommerceTools.onPayments. rewrite H. reflexivity. Qed.

(* ===================================================================== *)
(** ** Expiry *)
(* ===================================================================== *)

Lemma get_expired now sessionId sm s :
  SessionManager.sessions sm !! sessionId = Some s →
  CheckoutSession.expiresAt s < now →
  SessionManager.get now sessionId sm
  = (Ok None, SessionManager.with_sessions (base.delete sessionId) sm).
Proof.
  intros Hs Hexp. unfold SessionManager.get. rewrite Hs.
  apply Z.ltb_lt in Hexp. rewrite Hexp. reflexivity.
Qed.

Lemma get_live now sessionId sm s :
  SessionManager.sessions sm !! sessionId = Some s →
  live now s →
  SessionManager.get now sessionId sm = (Ok (Some s), sm).
Proof.
  intros Hs Hlive. unfold SessionManager.get. rewrite Hs.
  unfold live in Hlive. apply Z.ltb_ge in Hlive. rewrite Hlive. reflexivity.
Qed.

Lemma require_expired now sessionId sm s :
  SessionManager.sessions sm !! sessionId = Some s →
  CheckoutSession.expiresAt s < now →
  SessionManager.require now sessionId sm
  = (Err SessionNotFound,
     SessionManager.with_sessions (base.delete sessionId) sm).
Proof.
  intros Hs Hexp. unfold SessionManager.require.
  erewrite bind_ok by (eapply get_expired; eassumption). reflexivity.
Qed.

Lemma require_live now sessionId sm s :
  SessionManager.sessions sm !! sessionId = Some s →
  live now s →
  SessionManager.require now sessionId sm = (Ok s, sm).
Proof.
  intros Hs Hlive. unfold SessionManager.require.
  erewrite bind_ok by (eapply get_live; eassumption). reflexivity.
Qed.

Lemma requireSession_expired now sessionId w s :
  stored w sessionId = Some s →
  CheckoutSession.expiresAt s < now →
  CommerceTools.requireSession now sessionId w
  = (Err SessionNotFound, evict sessionId w).
Proof.
  intros Hs Hexp. unfold CommerceTools.requireSession.
  erewrite onSessions_run by (eapply require_expired; eassumption).
  reflexivity.
Qed.

Lemma requireSession_live now sessionId w s :
  stored w sessionId = Some s →
  live now s →
  CommerceTools.requireSession now sessionId w = (Ok s, w).
Proof.
  intros Hs Hlive. unfold CommerceTools.requireSession.
  erewrite onSessions_run by (eapply require_live; eassumption).
  destruct w; reflexivity.
Qed.

(** A session-manager method that starts with the lookup fails on an
    expired session and leaves the map without its entry. *)
Lemma onSessions_expired {A} (k : CheckoutSession.t → M SessionManager.t A)
    now sessionId w s :
  stored w sessionId = Some s →
  CheckoutSession.expiresAt s < now →
  CommerceTools.onSessions
    (do session <- SessionManager.require now sessionId; k session) w
  = (Err SessionNotFound, evict sessionId w).
Proof.
  intros Hs Hexp. apply onSessions_run.
  eapply bind_err, require_expired; eassumption.
Qed.



(* ===================================================================== *)
(** ** The cart *)
(* ===================================================================== *)





Lemma remove_absent productId items :
  find_item productId items = None →
  List.filter
    (λ item, negb (bool_decide (CartItem.productId item = productId))) items
  = items.
Proof.
  unfold find_item. induction items as [|i rest IH]; simpl.
  - intros _. reflexivity.
  - destruct (bool_decide (CartItem.productId i = productId)); [discriminate|].
    intros H. simpl. rewrite IH by exact H. reflexivity.
Qed.




(** The catalog map built by the constructor is keyed by the product ids. *)
Lemma catalog_keyed_by_id (ps : list Product.t) (ttl : option Z) productId p :
  SessionManager.products (SessionManager.new ps ttl) !! productId = Some p →
  Product.id p = productId.
Proof.
  unfold SessionManager.new; simpl.
  assert (Hgen : ∀ m : gmap string Product.t,
            (∀ k q, m !! k = Some q → Product.id q = k) →
            ∀ k q, foldl (λ m p, <[Product.id p := p]> m) m ps !! k = Some q →
                   Product.id q = k).
  { induction ps as [|x ps IH]; intros m Hm k q; simpl; [apply Hm|].
    apply IH. intros k' q' Hk'.
    destruct (decide (Product.id x = k')) as [<-|Hne].
    - rewrite lookup_insert_eq in Hk'. congruence.
    - rewrite lookup_insert_ne in Hk' by exact Hne. apply Hm, Hk'. }
  apply Hgen. intros k q Hk. rewrite lookup_empty in Hk. discriminate Hk.
Qed.



(* ===================================================================== *)
(** ** Status updates and the token strategy, step by step *)
(* ===================================================================== *)

Lemma updateStatus_live now sessionId status sm s :
  SessionManager.sessions sm !! sessionId = Some s →
  live now s →
  SessionManager.updateStatus now sessionId status sm
  = (Ok (CheckoutSession.with_status status s),
     SessionManager.with_sessions
       (insert sessionId (CheckoutSession.with_status status s)) sm).
Proof.
  intros Hs Hlive. unfold SessionManager.updateStatus.
  erewrite bind_ok by (eapply require_live; eassumption). reflexivity.
Qed.

Lemma updateStatus_on_live now sessionId status w s :
  stored w sessionId = Some s →
  live now s →
  CommerceTools.onSessions
    (SessionManager.updateStatus now sessionId status) w
  = (Ok (CheckoutSession.with_status status s),
     put sessionId (CheckoutSession.with_status status s) w).
Proof.
  intros Hs Hlive.
  erewrite onSessions_run by (eapply updateStatus_live; eassumption).
  reflexivity.
Qed.

Lemma stored_put sessionId s w : stored (put sessionId s w) sessionId = Some s.
Proof. unfold stored, put; simpl. apply lookup_insert_eq. Qed.

Lemma stored_sent es w sessionId : stored (sent es w) sessionId = stored w sessionId.
Proof. reflexivity. Qed.

Lemma processSharedPaymentToken_confirms stripe s spt log first rest created :
  CheckoutSession.items s = first :: rest →
  0 < Totals.total (CheckoutSession.totals s) →
  PaymentManager.existingPaymentIntent s = None →
  Stripe.paymentIntents_create stripe s = Ok created →
  PaymentManager.processSharedPaymentToken stripe s spt log
  = (match Stripe.paymentIntents_confirm stripe (PaymentIntent.id created) spt with
     | Err (StripeError msg) => Err (PaymentFailed msg)
     | answer => answer
     end,
     log ++ [PaymentIntentCreate (CheckoutSession.id s)
               (Totals.total (CheckoutSession.totals s))
               (Totals.currency (CheckoutSession.totals s));
             PaymentIntentConfirm (PaymentIntent.id created) spt]).
Proof.
  intros Hitems Htotal Hnone Hcreate.
  unfold PaymentManager.processSharedPaymentToken,
    PaymentManager.createPaymentIntent.
  rewrite Hnone, Hitems. apply Z.leb_gt in Htotal. rewrite Htotal.
  unfold bind, catch, emit, modify, of_result, ret, throw; simpl.
  rewrite Hcreate; simpl. rewrite <- app_assoc; simpl.
  destruct (Stripe.paymentIntents_confirm stripe (PaymentIntent.id created) spt)
    as [pi|[]]; reflexivity.
Qed.

Section TokenStrategy.
Import CommerceTools.

Variables (cfg : Config) (r : Readings) (sessionId spt : string).
Variables (w : CommerceTools.t) (s : CheckoutSession.t).
Variables (first : CartItem.t) (rest : list CartItem.t) (b : BuyerInfo.t).
Variables (created pi : PaymentIntent.t).

Hypothesis Hstored : stored w sessionId = Some s.
Hypothesis Hlive_get : live (now_get r) s.
Hypothesis Hlive_processing : live (now_processing r) s.
Hypothesis Hitems : CheckoutSession.items s = first :: rest.
Hypothesis Hbuyer : CheckoutSession.buyer s = Some b.
Hypothesis Hemail : truthy (BuyerInfo.email b) = true.
Hypothesis Htotal : 0 < Totals.total (CheckoutSession.totals s).
Hypothesis Hnone : PaymentManager.existingPaymentIntent s = None.
Hypothesis Hcreate :
  Stripe.paymentIntents_create (stripe cfg)
    (CheckoutSession.with_status SessionStatus.processing s) = Ok created.

(** Up to the gateway's answer: the session is looked up, the cart and the
    buyer are checked, the status becomes [processing] and the token is
    submitted, whatever the status was. *)
Lemma completeCheckout_submits :
  completeCheckout cfg r sessionId spt w
  = catch
      (do paymentIntent <-
         of_result
           (match Stripe.paymentIntents_confirm (stripe cfg)
                    (PaymentIntent.id created) spt with
            | Err (StripeError msg) => Err (PaymentFailed msg)
            | answer => answer
            end);
       match PaymentIntent.status paymentIntent with
       | PaymentIntent.succeeded =>
           do order <-
             of_result
               (PaymentManager.createOrderFromSession (order_rnd r)
                  (now_paidAt r) (now_createdAt r)
                  (CheckoutSession.with_status SessionStatus.processing s)
                  paymentIntent);
           storeOrder order ;;
           onSessions
             (SessionManager.updateStatus (now_completed r) sessionId
                SessionStatus.completed) ;;
           onPayments (emit (OnPurchase order)) ;;
           of_result (onPurchase cfg order) ;;
           ret order
       | status => throw (PaymentFailed (PaymentIntent.status_name status))
       end)
      (λ error,
         onSessions
           (SessionManager.updateStatus (now_failed r) sessionId
              SessionStatus.failed) ;;
         throw error)
      (sent (charge s created spt)
         (put sessionId
            (CheckoutSession.with_status SessionStatus.processing s) w)).
Proof.
  unfold completeCheckout.
  erewrite bind_ok by (eapply requireSession_live; eassumption).
  rewrite Hitems.
  assert (Hmail : PaymentManager.buyer_email s = Some (BuyerInfo.email b)).
  { unfold PaymentManager.buyer_email. rewrite Hbuyer; simpl.
    rewrite Hemail. reflexivity. }
  rewrite Hmail.
  erewrite bind_ok by (eapply updateStatus_on_live; eassumption).
  set (sp := CheckoutSession.with_status SessionStatus.processing s) in *.
  apply catch_same, bind_same.
  erewrite onPayments_run.
  2:{ eapply (processSharedPaymentToken_confirms (stripe cfg) sp spt);
        [exact Hitems | exact Htotal | exact Hnone | exact Hcreate]. }
  reflexivity.
Qed.

Hypothesis Hconfirm :
  Stripe.paymentIntents_confirm (stripe cfg) (PaymentIntent.id created) spt
  = Ok pi.
Hypothesis Hsucceeded : PaymentIntent.status pi = PaymentIntent.succeeded.
Hypothesis Hlive_completed : live (now_completed r) s.

Lemma settle_state status order :
  sent [OnPurchase order]
    (put sessionId (CheckoutSession.with_status status s)
       (filed order
          (sent (charge s created spt)
             (put sessionId
                (CheckoutSession.with_status SessionStatus.processing s) w))))
  = settled status sessionId s created spt order w.
Proof.
  unfold sent, put, filed, settled, SessionManager.with_sessions; simpl.
  rewrite insert_insert_eq, <- app_assoc. reflexivity.
Qed.

(** Once the gateway reports [succeeded]: the order is built and filed, the
    status becomes [completed], the callback is invoked with the order.  If
    the callback throws, the [catch] block runs on that state. *)
Lemma completeCheckout_paid :
  let order := orderOf r s b pi in
  completeCheckout cfg r sessionId spt w
  = match onPurchase cfg order with
    | Ok _ =>
        (Ok order,
         settled SessionStatus.completed sessionId s created spt order w)
    | Err error =>
        (onSessions
           (SessionManager.updateStatus (now_failed r) sessionId
              SessionStatus.failed) ;;
         throw error)
          (settled SessionStatus.completed sessionId s created spt order w)
    end.
Proof.
  intros order. rewrite completeCheckout_submits, Hconfirm.
  assert (Horder :
    PaymentManager.createOrderFromSession (order_rnd r) (now_paidAt r)
      (now_createdAt r)
      (CheckoutSession.with_status SessionStatus.processing s) pi = Ok order).
  { unfold PaymentManager.createOrderFromSession; simpl.
    rewrite Hbuyer, Hsucceeded. reflexivity. }
  clearbody order.
  set (w2 := sent _ _).
  match goal with
  | |- catch ?m ?h w2 = _ =>
      assert (Hinner : m w2
        = match onPurchase cfg order with
          | Ok _ =>
              (Ok order,
               settled SessionStatus.completed sessionId s created spt order w)
          | Err error =>
              (Err error,
               settled SessionStatus.completed sessionId s created spt order w)
          end)
  end.
  { erewrite bind_ok by reflexivity. rewrite Hsucceeded.
    erewrite bind_ok by (unfold of_result; rewrite Horder; reflexivity).
    erewrite bind_ok by reflexivity.
    erewrite bind_ok.
    2:{ eapply updateStatus_on_live with
          (s := CheckoutSession.with_status SessionStatus.processing s);
          [apply stored_put | exact Hlive_completed]. }
    erewrite bind_ok by reflexivity.
    unfold bind, of_result, ret.
    rewrite <- (settle_state SessionStatus.completed order).
    destruct (onPurchase cfg order); reflexivity. }
  unfold catch. rewrite Hinner.
  destruct (onPurchase cfg order); reflexivity.
Qed.

End TokenStrategy.

Lemma stored_settled status sessionId s created spt order w :
  stored (settled status sessionId s created spt order w) sessionId
  = Some (CheckoutSession.with_status status s).
Proof. unfold stored, settled; simpl. apply lookup_insert_eq. Qed.

Lemma getOrder_settled status sessionId s created spt order w :
  CommerceTools.getOrder (Order.id order)
    (settled status sessionId s created spt order w) = Some order.
Proof. unfold CommerceTools.getOrder, settled; simpl. apply lookup_insert_eq. Qed.

Lemma getOrder_settled_other status sessionId s created spt order w orderId :
  orderId ≠ Order.id order →
  CommerceTools.getOrder orderId
    (settled status sessionId s created spt order w)
  = CommerceTools.getOrder orderId w.
Proof.
  intros Hne. unfold CommerceTools.getOrder, settled; simpl.
  apply lookup_insert_ne. congruence.
Qed.

Lemma put_settled status status' sessionId s created spt order w :
  put sessionId (CheckoutSession.with_status status' s)
    (settled status sessionId s created spt order w)
  = settled status' sessionId s created spt order w.
Proof.
  unfold put, settled, SessionManager.with_sessions; simpl.
  rewrite insert_insert_eq. reflexivity.
Qed.

(** The [catch] block after a callback failure, on a session still live. *)
Lemma completeCheckout_hook_failed
    cfg r sessionId spt w s first rest b created pi error :
  stored w sessionId = Some s →
  live (CommerceTools.now_get r) s →
  live (CommerceTools.now_processing r) s →
  CheckoutSession.items s = first :: rest →
  CheckoutSession.buyer s = Some b →
  truthy (BuyerInfo.email b) = true →
  0 < Totals.total (CheckoutSession.totals s) →
  PaymentManager.existingPaymentIntent s = None →
  Stripe.paymentIntents_create (CommerceTools.stripe cfg)
    (CheckoutSession.with_status SessionStatus.processing s) = Ok created →
  Stripe.paymentIntents_confirm (CommerceTools.stripe cfg)
    (PaymentIntent.id created) spt = Ok pi →
  PaymentIntent.status pi = PaymentIntent.succeeded →
  live (CommerceTools.now_completed r) s →
  CommerceTools.onPurchase cfg (orderOf r s b pi) = Err error →
  live (CommerceTools.now_failed r) s →
  CommerceTools.completeCheckout cfg r sessionId spt w
  = (Err error,
     settled SessionStatus.failed sessionId s created spt (orderOf r s b pi) w).
Proof.
  intros Hs Hl1 Hl2 Hitems Hb Hmail Htotal Hnone Hcreate Hconfirm Hsucc Hl3
    Hhook Hl4.
  rewrite (completeCheckout_paid cfg r sessionId spt w s first rest b created pi)
    by assumption.
  cbv zeta. rewrite Hhook.
  erewrite bind_ok.
  2:{ eapply updateStatus_on_live with
        (s := CheckoutSession.with_status SessionStatus.completed s);
        [apply stored_settled | exact Hl4]. }
  unfold throw. f_equal.
  exact (put_settled SessionStatus.completed SessionStatus.failed sessionId s
           created spt (orderOf r s b pi) w).
Qed.

(** C2 (as the code has it).  [completeCheckout] does not look at the
    status and has no duplicate-order guard.  On a live session that is
    already [completed], with a non-empty cart, a buyer email, a positive
    total and no recorded payment intent, a gateway that accepts the token
    and a callback that returns, the call returns a further Order under the
    id generated at this call and files it; orders filed under other ids
    stay; the session stays [completed]. *)
Theorem completeCheckout_again_creates_another_order
    (cfg : CommerceTools.Config) (r : CommerceTools.Readings)
    (sessionId spt : string) (w : CommerceTools.t) (s : CheckoutSession.t)
    (first : CartItem.t) (rest : list CartItem.t) (b : BuyerInfo.t)
    (created pi : PaymentIntent.t) :
  stored w sessionId = Some s →
  CheckoutSession.status s = SessionStatus.completed →
  live (CommerceTools.now_get r) s →
  live (CommerceTools.now_processing r) s →
  live (CommerceTools.now_completed r) s →
  CheckoutSession.items s = first :: rest →
  CheckoutSession.buyer s = Some b →
  truthy (BuyerInfo.email b) = true →
  0 < Totals.total (CheckoutSession.totals s) →
  PaymentManager.existingPaymentIntent s = None →
  Stripe.paymentIntents_create (CommerceTools.stripe cfg)
    (CheckoutSession.with_status SessionStatus.processing s) = Ok created →
  Stripe.paymentIntents_confirm (CommerceTools.stripe cfg)
    (PaymentIntent.id created) spt = Ok pi →
  PaymentIntent.status pi = PaymentIntent.succeeded →
  CommerceTools.onPurchase cfg (orderOf r s b pi) = Ok tt →
  let order := orderOf r s b pi in
  let w' := settled SessionStatus.completed sessionId s created spt order w in
  CommerceTools.completeCheckout cfg r sessionId spt w = (Ok order, w')
  ∧ Order.id order = generateId "ord_" (CommerceTools.order_rnd r)
  ∧ Order.sessionId order = CheckoutSession.id s
  ∧ CommerceTools.getOrder (Order.id order) w' = Some order
  ∧ (∀ orderId, orderId ≠ Order.id order →
       CommerceTools.getOrder orderId w' = CommerceTools.getOrder orderId w)
  ∧ CheckoutSession.status <$> stored w' sessionId
    = Some SessionStatus.completed.
Proof.
  intros Hs _ Hl1 Hl2 Hl3 Hitems Hb Hmail Htotal Hnone Hcreate Hconfirm Hsucc
    Hhook.
  cbv zeta. split.
  { rewrite (completeCheckout_paid cfg r sessionId spt w s first rest b
               created pi) by assumption.
    cbv zeta. rewrite Hhook. reflexivity. }
  split; [reflexivity|]. split; [reflexivity|].
  split; [apply getOrder_settled|].
  split; [intros orderId Hne; apply getOrder_settled_other, Hne|].
  rewrite stored_settled. reflexivity.
Qed.

Lemma completeCheckout_again_creates_another_order_witness :
  ∃ order w',
    CommerceTools.completeCheckout fulfilling (at_time 6 "Y") "cs_A" "spt_1"
      paid_A = (Ok order, w')
    ∧ Order.id order = "ord_Y"
    ∧ CommerceTools.getOrder "ord_Y" w' = Some order
    ∧ CommerceTools.getOrder "ord_X" w' = CommerceTools.getOrder "ord_X" paid_A.
Proof.
  edestruct (completeCheckout_again_creates_another_order
               fulfilling (at_time 6 "Y") "cs_A" "spt_1" paid_A)
    as (Hrun & Hid & _ & Hget & Hkeep & _).
  - vm_compute; reflexivity.
  - reflexivity.
  - unfold live; simpl; lia.
  - unfold live; simpl; lia.
  - unfold live; simpl; lia.
  - reflexivity.
  - reflexivity.
  - reflexivity.
  - simpl; lia.
  - reflexivity.
  - reflexivity.
  - reflexivity.
  - reflexivity.
  - reflexivity.
  - eexists _, _. split; [exact Hrun|]. split; [exact Hid|].
    split; [exact Hget|]. apply Hkeep. discriminate.
Defined.

(** C2 fails as stated: after a completion has succeeded on [cs_A], a
    second completion on the same session succeeds as well and files a
    second order for it. *)
Lemma second_completion_succeeds :
  let again :=
    CommerceTools.completeCheckout fulfilling (at_time 6 "Y") "cs_A" "spt_1"
      paid_A in
  CheckoutSession.status <$> stored paid_A "cs_A" = Some SessionStatus.completed
  ∧ Order.sessionId <$> CommerceTools.getOrder "ord_X" paid_A = Some "cs_A"
  ∧ Order.id <$> value again.1 = Some "ord_Y"
  ∧ Order.sessionId <$> CommerceTools.getOrder "ord_X" again.2 = Some "cs_A"
  ∧ Order.sessionId <$> CommerceTools.getOrder "ord_Y" again.2 = Some "cs_A"
  ∧ size (CommerceTools.orders again.2) = 2%nat.
Proof. vm_compute. repeat split. Qed.

(** The redirect strategy on a live session with items and a buyer email:
    the gateway is asked for a hosted checkout session, whatever the status
    of the session. *)
Lemma createPaymentLink_asks_gateway
    cfg now now_link sessionId successUrl cancelUrl w s first rest b :
  stored w sessionId = Some s →
  live now s →
  CheckoutSession.items s = first :: rest →
  CheckoutSession.buyer s = Some b →
  truthy (BuyerInfo.email b) = true →
  CommerceTools.createPaymentLink cfg now now_link sessionId
    successUrl cancelUrl w
  = (match Stripe.checkout_sessions_create (CommerceTools.stripe cfg) s
             successUrl cancelUrl (now_link `div` 1000 + 3600) with
     | Ok link =>
         Ok (CommerceTools.mkPaymentLink (StripeCheckout.url link)
               (StripeCheckout.expires_at link * 1000)
               (StripeCheckout.id link))
     | Err e => Err e
     end,
     sent [CheckoutSessionCreate (CheckoutSession.id s)] w).
Proof.
  intros Hs Hlive Hitems Hb Hmail.
  assert (Hemail : PaymentManager.buyer_email s = Some (BuyerInfo.email b)).
  { unfold PaymentManager.buyer_email. rewrite Hb; simpl.
    rewrite Hmail. reflexivity. }
  unfold CommerceTools.createPaymentLink.
  erewrite bind_ok by (eapply requireSession_live; eassumption).
  rewrite Hitems, Hemail.
  unfold PaymentManager.createCheckoutSession. rewrite Hitems, Hemail.
  unfold bind, CommerceTools.onPayments, emit, modify, of_result, ret; simpl.
  destruct (Stripe.checkout_sessions_create _ _ _ _ _); reflexivity.
Qed.

(** C3 (as the code has it).  Neither strategy looks at the status.  On a
    live session whose status is [processing], with a non-empty cart and a
    buyer email: [completeCheckout] sends the charge to the gateway and,
    when the gateway reports [succeeded] and the callback returns, returns
    the Order and leaves the session [completed]; [createPaymentLink] asks
    the gateway for a hosted checkout session and returns its link. *)
Theorem payment_strategies_run_while_processing
    (cfg : CommerceTools.Config) (r : CommerceTools.Readings)
    (now now_link : Z) (sessionId spt : string)
    (successUrl cancelUrl : option string)
    (w : CommerceTools.t) (s : CheckoutSession.t)
    (first : CartItem.t) (rest : list CartItem.t) (b : BuyerInfo.t)
    (created pi : PaymentIntent.t) (link : StripeCheckout.t) :
  stored w sessionId = Some s →
  CheckoutSession.status s = SessionStatus.processing →
  live (CommerceTools.now_get r) s →
  live (CommerceTools.now_processing r) s →
  live (CommerceTools.now_completed r) s →
  live now s →
  CheckoutSession.items s = first :: rest →
  CheckoutSession.buyer s = Some b →
  truthy (BuyerInfo.email b) = true →
  0 < Totals.total (CheckoutSession.totals s) →
  PaymentManager.existingPaymentIntent s = None →
  Stripe.paymentIntents_create (CommerceTools.stripe cfg)
    (CheckoutSession.with_status SessionStatus.processing s) = Ok created →
  Stripe.paymentIntents_confirm (CommerceTools.stripe cfg)
    (PaymentIntent.id created) spt = Ok pi →
  PaymentIntent.status pi = PaymentIntent.succeeded →
  CommerceTools.onPurchase cfg (orderOf r s b pi) = Ok tt →
  Stripe.checkout_sessions_create (CommerceTools.stripe cfg) s
    successUrl cancelUrl (now_link `div` 1000 + 3600) = Ok link →
  CommerceTools.completeCheckout cfg r sessionId spt w
  = (Ok (orderOf r s b pi),
     settled SessionStatus.completed sessionId s created spt
       (orderOf r s b pi) w)
  ∧ CommerceTools.createPaymentLink cfg now now_link sessionId
      successUrl cancelUrl w
    = (Ok (CommerceTools.mkPaymentLink (StripeCheckout.url link)
             (StripeCheckout.expires_at link * 1000)
             (StripeCheckout.id link)),
       sent [CheckoutSessionCreate (CheckoutSession.id s)] w).
Proof.
  intros Hs _ Hl1 Hl2 Hl3 Hl4 Hitems Hb Hmail Htotal Hnone Hcreate Hconfirm
    Hsucc Hhook Hlink.
  split.
  - rewrite (completeCheckout_paid cfg r sessionId spt w s first rest b
               created pi) by assumption.
    cbv zeta. rewrite Hhook. reflexivity.
  - rewrite (createPaymentLink_asks_gateway cfg now now_link sessionId
               successUrl cancelUrl w s first rest b) by assumption.
    rewrite Hlink. reflexivity.
Qed.

Lemma payment_strategies_run_while_processing_witness :
  ∃ order w' link w'',
    CommerceTools.completeCheckout fulfilling (at_time 2 "Z") "cs_A" "spt_1"
      processing_A = (Ok order, w')
    ∧ CommerceTools.createPaymentLink fulfilling 2 2 "cs_A" None None
        processing_A = (Ok link, w'').
Proof.
  edestruct (payment_strategies_run_while_processing
               fulfilling (at_time 2 "Z") 2 2 "cs_A" "spt_1" None None
               processing_A)
    as (Hcomplete & Hlink).
  - vm_compute; reflexivity.
  - reflexivity.
  - unfold live; simpl; lia.
  - unfold live; simpl; lia.
  - unfold live; simpl; lia.
  - unfold live; simpl; lia.
  - reflexivity.
  - reflexivity.
  - reflexivity.
  - simpl; lia.
  - reflexivity.
  - reflexivity.
  - reflexivity.
  - reflexivity.
  - reflexivity.
  - reflexivity.
  - eexists _, _, _, _. split; [exact Hcomplete | exact Hlink].
Defined.

(** C3 fails as stated: on a session whose status is [processing], the
    token strategy charges the gateway and returns an order, and the
    redirect strategy returns a payment link. *)
Lemma processing_session_is_charged :
  let token :=
    CommerceTools.completeCheckout fulfilling (at_time 2 "Z") "cs_A" "spt_1"
      processing_A in
  let redirect :=
    CommerceTools.createPaymentLink fulfilling 2 2 "cs_A" None None
      processing_A in
  CheckoutSession.status <$> stored processing_A "cs_A"
  = Some SessionStatus.processing
  ∧ CommerceTools.effects processing_A = []
  ∧ Order.id <$> value token.1 = Some "ord_Z"
  ∧ CommerceTools.effects token.2 !! 1%nat
    = Some (PaymentIntentConfirm "pi_cs_A" "spt_1")
  ∧ CommerceTools.url <$> value redirect.1
    = Some "https://checkout.stripe.com/c/pay"
  ∧ CommerceTools.effects redirect.2 = [CheckoutSessionCreate "cs_A"].
Proof. vm_compute. repeat split. Qed.

(** C9 (as the code has it).  When the token payment succeeds, the Order
    is built, filed under its id, the status is set to [completed] and the
    callback is invoked with the Order.  If the callback returns, the call
    returns the Order.  If the callback throws while the session is still
    live, the Order stays filed, the [catch] block sets the status to
    [failed], and the call throws the callback's error. *)
Theorem completeCheckout_fulfillment
    (cfg : CommerceTools.Config) (r : CommerceTools.Readings)
    (sessionId spt : string) (w : CommerceTools.t) (s : CheckoutSession.t)
    (first : CartItem.t) (rest : list CartItem.t) (b : BuyerInfo.t)
    (created pi : PaymentIntent.t) :
  stored w sessionId = Some s →
  live (CommerceTools.now_get r) s →
  live (CommerceTools.now_processing r) s →
  live (CommerceTools.now_completed r) s →
  CheckoutSession.items s = first :: rest →
  CheckoutSession.buyer s = Some b →
  truthy (BuyerInfo.email b) = true →
  0 < Totals.total (CheckoutSession.totals s) →
  PaymentManager.existingPaymentIntent s = None →
  Stripe.paymentIntents_create (CommerceTools.stripe cfg)
    (CheckoutSession.with_status SessionStatus.processing s) = Ok created →
  Stripe.paymentIntents_confirm (CommerceTools.stripe cfg)
    (PaymentIntent.id created) spt = Ok pi →
  PaymentIntent.status pi = PaymentIntent.succeeded →
  let order := orderOf r s b pi in
  let after_hook status :=
    settled status sessionId s created spt order w in
  (CommerceTools.onPurchase cfg order = Ok tt →
     CommerceTools.completeCheckout cfg r sessionId spt w
     = (Ok order, after_hook SessionStatus.completed))
  ∧ (∀ error,
       CommerceTools.onPurchase cfg order = Err error →
       live (CommerceTools.now_failed r) s →
       CommerceTools.completeCheckout cfg r sessionId spt w
       = (Err error, after_hook SessionStatus.failed))
  ∧ (∀ status,
       CommerceTools.getOrder (Order.id order) (after_hook status) = Some order
       ∧ CheckoutSession.status <$> stored (after_hook status) sessionId
         = Some status
       ∧ last (CommerceTools.effects (after_hook status))
         = Some (OnPurchase order)).
Proof.
  intros Hs Hl1 Hl2 Hl3 Hitems Hb Hmail Htotal Hnone Hcreate Hconfirm Hsucc.
  cbv zeta. split; [|split].
  - intros Hhook.
    rewrite (completeCheckout_paid cfg r sessionId spt w s first rest b
               created pi) by assumption.
    cbv zeta. rewrite Hhook. reflexivity.
  - intros error Hhook Hl4.
    eapply completeCheckout_hook_failed; eassumption.
  - intros status. split; [apply getOrder_settled|]. split.
    + rewrite stored_settled. reflexivity.
    + unfold settled; cbn [CommerceTools.effects].
      rewrite app_assoc. apply last_snoc.
Qed.

Lemma completeCheckout_fulfillment_witness :
  ∃ order w',
    CommerceTools.completeCheckout failing_hook (at_time 5 "X") "cs_A" "spt_1"
      cart_A = (Err (Thrown "fulfillment failed"), w')
    ∧ CommerceTools.getOrder "ord_X" w' = Some order
    ∧ CheckoutSession.status <$> stored w' "cs_A" = Some SessionStatus.failed.
Proof.
  edestruct (completeCheckout_fulfillment
               failing_hook (at_time 5 "X") "cs_A" "spt_1" cart_A)
    as (_ & Hfail & Hfacts).
  - vm_compute; reflexivity.
  - unfold live; simpl; lia.
  - unfold live; simpl; lia.
  - unfold live; simpl; lia.
  - reflexivity.
  - reflexivity.
  - reflexivity.
  - simpl; lia.
  - reflexivity.
  - reflexivity.
  - reflexivity.
  - reflexivity.
  - destruct (Hfacts SessionStatus.failed) as (Hget & Hstatus & _).
    eexists _, _. split.
    + apply Hfail; [reflexivity | unfold live; simpl; lia].
    + split; [exact Hget | exact Hstatus].
Defined.

(** C9 fails as stated: when the callback throws after a successful
    payment, the call throws its error and the session ends [failed], not
    [completed]; the order is on file. *)
Lemma hook_failure_fails_the_checkout :
  let outcome :=
    CommerceTools.completeCheckout failing_hook (at_time 5 "X") "cs_A" "spt_1"
      cart_A in
  thrown outcome.1 = Some (Thrown "fulfillment failed")
  ∧ value outcome.1 = None
  ∧ CheckoutSession.status <$> stored outcome.2 "cs_A"
    = Some SessionStatus.failed
  ∧ Order.sessionId <$> CommerceTools.getOrder "ord_X" outcome.2 = Some "cs_A"
  ∧ CommerceTools.effects outcome.2 !! 1%nat
    = Some (PaymentIntentConfirm "pi_cs_A" "spt_1").
Proof. vm_compute. repeat split. Qed.

(* ===================================================================== *)
(** ** Quantity updates and removal *)
(* ===================================================================== *)

(** C5 (the code at the failing input).  On the live session [cs_A], whose
    cart holds two books, [updateQuantity] with quantity [-1] does not
    throw: it returns the session with the book's quantity set to [-1] and
    the totals recomputed to a negative amount, and stores it. *)
Example updateQuantity_accepts_negative_quantity :
  let outcome := CommerceTools.updateQuantity 10 "cs_A" "test-1" (-1) cart_A in
  CheckoutSession.items <$> stored cart_A "cs_A"
  = Some [CartItem.mk "test-1" 2 1999 usd "Test Product 1"]
  ∧ thrown outcome.1 = None
  ∧ CheckoutSession.items <$> value outcome.1
    = Some [CartItem.mk "test-1" (-1) 1999 usd "Test Product 1"]
  ∧ CheckoutSession.totals <$> value outcome.1
    = Some (Totals.mk (-1999) 0 0 0 (-1999) usd)
  ∧ stored outcome.2 "cs_A" = value outcome.1
  ∧ thrown (CommerceTools.addToCart 0 "B" 10 (Some "cs_A") "test-1" (Some (-1))
              cart_A).1
    = Some InvalidQuantity.
Proof. vm_compute. repeat split. Qed.

Lemma removeItem_absent now sessionId productId sm s :
  SessionManager.sessions sm !! sessionId = Some s →
  live now s →
  find_item productId (CheckoutSession.items s) = None →
  SessionManager.removeItem now sessionId productId sm
  = (Ok (refreshed s),
     SessionManager.with_sessions (insert sessionId (refreshed s)) sm).
Proof.
  intros Hs Hlive Habsent. unfold SessionManager.removeItem.
  erewrite bind_ok by (eapply require_live; eassumption).
  rewrite remove_absent by exact Habsent.
  assert (Hsame : CheckoutSession.with_items (CheckoutSession.items s) s = s)
    by (destruct s; reflexivity).
  rewrite Hsame. cbv zeta. rewrite recalculateTotals_items.
  unfold refreshed. destruct (CheckoutSession.items s); reflexivity.
Qed.

Lemma refreshed_unchanged (s : CheckoutSession.t) :
  SessionManager.recalculateTotals s = s →
  CheckoutSession.items s ≠ []
  ∨ CheckoutSession.status s = SessionStatus.pending →
  refreshed s = s.
Proof.
  intros Hrec Hcase. unfold refreshed.
  destruct (CheckoutSession.items s) as [|i rest] eqn:Hitems.
  - destruct Hcase as [Hne|Hpending]; [congruence|].
    rewrite Hrec. destruct s; simpl in *. rewrite Hpending. reflexivity.
  - exact Hrec.
Qed.

(** C8 (as the code has it).  [updateQuantity] with quantity 0 is
    [removeItem]: same result, same state, from every state.  When the
    live session does not hold the product, both return without an error;
    the session they return and store has the same items, totals recomputed
    from them, and status [pending] if the cart is empty; it is the session
    as it was whenever its totals were up to date and its cart was
    non-empty or its status [pending]. *)
Theorem updateQuantity_zero_is_removeItem
    (sm : SessionManager.t) (now : Z) (sessionId productId : string) :
  SessionManager.updateQuantity now sessionId productId 0 sm
  = SessionManager.removeItem now sessionId productId sm
  ∧ ∀ s,
      SessionManager.sessions sm !! sessionId = Some s →
      live now s →
      find_item productId (CheckoutSession.items s) = None →
      SessionManager.removeItem now sessionId productId sm
      = (Ok (refreshed s),
         SessionManager.with_sessions (insert sessionId (refreshed s)) sm)
      ∧ CheckoutSession.items (refreshed s) = CheckoutSession.items s
      ∧ (CheckoutSession.items s = [] →
         CheckoutSession.status (refreshed s) = SessionStatus.pending)
      ∧ (SessionManager.recalculateTotals s = s →
         CheckoutSession.items s ≠ []
         ∨ CheckoutSession.status s = SessionStatus.pending →
         refreshed s = s).
Proof.
  split; [reflexivity|].
  intros s Hs Hlive Habsent.
  split; [apply removeItem_absent; assumption|].
  split; [unfold refreshed; destruct (CheckoutSession.items s) eqn:E;
          simpl; rewrite ?E; reflexivity|].
  split; [intros Hempty; unfold refreshed; rewrite Hempty; reflexivity|].
  apply refreshed_unchanged.
Qed.

Lemma updateQuantity_zero_is_removeItem_witness :
  ∃ s,
    stored cart_A "cs_A" = Some s
    ∧ SessionManager.updateQuantity 10 "cs_A" "test-2" 0
        (CommerceTools.sessionManager cart_A)
      = (Ok s, SessionManager.with_sessions (insert "cs_A" s)
                 (CommerceTools.sessionManager cart_A)).
Proof.
  eexists. split; [vm_compute; reflexivity|].
  destruct (updateQuantity_zero_is_removeItem
              (CommerceTools.sessionManager cart_A) 10 "cs_A" "test-2")
    as [Hsame Habsent].
  rewrite Hsame.
  edestruct Habsent as (Hrun & _ & _ & Hnoop).
  - vm_compute; reflexivity.
  - unfold live; simpl; lia.
  - reflexivity.
  - rewrite Hrun, Hnoop; [reflexivity | reflexivity | left; discriminate].
Defined.

(** C8 fails as stated in its last part: on a cancelled session with an
    empty cart, removing a product that is not there (by [removeItem] or by
    [updateQuantity] with 0) is not a no-op; the status goes back to
    [pending]. *)
Lemma removing_absent_product_resets_status :
  let removed :=
    SessionManager.removeItem 2 "cs_A" "test-1"
      (CommerceTools.sessionManager cancelled_empty) in
  let zeroed :=
    SessionManager.updateQuantity 2 "cs_A" "test-1" 0
      (CommerceTools.sessionManager cancelled_empty) in
  CheckoutSession.status <$> stored cancelled_empty "cs_A"
  = Some SessionStatus.cancelled
  ∧ CheckoutSession.items <$> stored cancelled_empty "cs_A" = Some []
  ∧ CheckoutSession.status <$> value removed.1 = Some SessionStatus.pending
  ∧ CheckoutSession.status <$> value zeroed.1 = Some SessionStatus.pending
  ∧ CheckoutSession.status <$> SessionManager.sessions removed.2 !! "cs_A"
    = Some SessionStatus.pending.
Proof. vm_compute. repeat split. Qed.

(* ===================================================================== *)
(** ** Cancellation *)
(* ===================================================================== *)

(** C6 (as the code has it).  [cancelCheckout] does not look at the
    status.  On every live session, whatever its status, it sets the status
    to [cancelled] and returns: at once when the session carries no payment
    intent, and after the gateway has cancelled the intent when it carries
    one. *)
Theorem cancelCheckout_ignores_status
    (cfg : CommerceTools.Config) (now now_update : Z) (sessionId : string)
    (w : CommerceTools.t) (s : CheckoutSession.t) :
  stored w sessionId = Some s →
  live now s →
  live now_update s →
  (PaymentManager.existingPaymentIntent s = None →
     CommerceTools.cancelCheckout cfg now now_update sessionId w
     = (Ok tt,
        put sessionId
          (CheckoutSession.with_status SessionStatus.cancelled s) w))
  ∧ (∀ id pi,
       PaymentManager.existingPaymentIntent s = Some id →
       Stripe.paymentIntents_cancel (CommerceTools.stripe cfg) id = Ok pi →
       CommerceTools.cancelCheckout cfg now now_update sessionId w
       = (Ok tt,
          put sessionId
            (CheckoutSession.with_status SessionStatus.cancelled s)
            (sent [PaymentIntentCancel id] w))).
Proof.
  intros Hs Hlive Hlive'. split.
  - intros Hnone. unfold CommerceTools.cancelCheckout.
    erewrite bind_ok by (eapply requireSession_live; eassumption).
    rewrite Hnone.
    erewrite bind_ok by reflexivity.
    erewrite bind_ok by (eapply updateStatus_on_live; eassumption).
    reflexivity.
  - intros id pi Hsome Hcancel. unfold CommerceTools.cancelCheckout.
    erewrite bind_ok by (eapply requireSession_live; eassumption).
    rewrite Hsome.
    erewrite (bind_ok _ _ _ tt (sent [PaymentIntentCancel id] w)).
    2:{ unfold bind, CommerceTools.onPayments,
          PaymentManager.cancelPaymentIntent, emit, modify, of_result, ret;
          simpl.
        rewrite Hcancel. reflexivity. }
    erewrite bind_ok.
    2:{ eapply updateStatus_on_live; [|exact Hlive'].
        rewrite stored_sent. exact Hs. }
    reflexivity.
Qed.

Lemma cancelCheckout_ignores_status_witness :
  ∃ s,
    stored paid_A "cs_A" = Some s
    ∧ CheckoutSession.status s = SessionStatus.completed
    ∧ CommerceTools.cancelCheckout fulfilling 7 7 "cs_A" paid_A
      = (Ok tt,
         put "cs_A" (CheckoutSession.with_status SessionStatus.cancelled s)
           paid_A).
Proof.
  eexists. split; [vm_compute; reflexivity|]. split; [reflexivity|].
  edestruct (cancelCheckout_ignores_status fulfilling 7 7 "cs_A" paid_A)
    as [Hnone _].
  - vm_compute; reflexivity.
  - unfold live; simpl; lia.
  - unfold live; simpl; lia.
  - apply Hnone. reflexivity.
Defined.

(** C6 fails as stated: cancelling a [completed] session, a [cancelled]
    one or a [pending] one returns without an error and leaves the status
    [cancelled]. *)
Lemma terminal_session_can_be_cancelled :
  let on_completed := CommerceTools.cancelCheckout fulfilling 7 7 "cs_A" paid_A in
  let on_cancelled :=
    CommerceTools.cancelCheckout fulfilling 8 8 "cs_A" on_completed.2 in
  let on_pending :=
    CommerceTools.cancelCheckout fulfilling 1 1 "cs_A"
      (run [createSession 0 "A"] shop) in
  CheckoutSession.status <$> stored paid_A "cs_A" = Some SessionStatus.completed
  ∧ value on_completed.1 = Some tt
  ∧ CheckoutSession.status <$> stored on_completed.2 "cs_A"
    = Some SessionStatus.cancelled
  ∧ value on_cancelled.1 = Some tt
  ∧ CheckoutSession.status <$> stored (run [createSession 0 "A"] shop) "cs_A"
    = Some SessionStatus.pending
  ∧ value on_pending.1 = Some tt
  ∧ CheckoutSession.status <$> stored on_pending.2 "cs_A"
    = Some SessionStatus.cancelled.
Proof. vm_compute. repeat split. Qed.

(* ===================================================================== *)
(** ** Calls without a session id *)
(* ===================================================================== *)

Lemma require_unknown now sessionId sm :
  SessionManager.sessions sm !! sessionId = None →
  SessionManager.require now sessionId sm = (Err SessionNotFound, sm).
Proof.
  intros Hnone. unfold SessionManager.require, SessionManager.get, bind.
  rewrite Hnone. reflexivity.
Qed.

Lemma onSessions_unknown {A} (k : CheckoutSession.t → M SessionManager.t A)
    now sessionId w :
  stored w sessionId = None →
  CommerceTools.onSessions
    (do session <- SessionManager.require now sessionId; k session) w
  = (Err SessionNotFound, w).
Proof.
  intros Hnone.
  erewrite onSessions_run by (eapply bind_err, require_unknown; exact Hnone).
  destruct w; reflexivity.
Qed.

Lemma resolveSession_creates now_create rnd missing w :
  missing = None ∨ missing = Some "" →
  CommerceTools.resolveSession now_create rnd missing w
  = (Ok (generateId "cs_" rnd),
     put (generateId "cs_" rnd) (fresh now_create rnd w) w).
Proof. intros [-> | ->]; reflexivity. Qed.

Lemma resolveSession_given now_create rnd sessionId w :
  sessionId ≠ "" →
  CommerceTools.resolveSession now_create rnd (Some sessionId) w
  = (Ok sessionId, w).
Proof.
  intros Hne. unfold CommerceTools.resolveSession, truthy.
  rewrite bool_decide_eq_false_2 by exact Hne. reflexivity.
Qed.

(** On a live session, [addItem] throws nothing but the product and
    quantity errors. *)
Lemma addItem_live_errors now sessionId productId quantity sm s :
  SessionManager.sessions sm !! sessionId = Some s →
  live now s →
  thrown (SessionManager.addItem now sessionId productId quantity sm).1
  ≠ Some SessionNotFound.
Proof.
  intros Hs Hlive. unfold SessionManager.addItem.
  erewrite bind_ok by (eapply require_live; eassumption).
  destruct (SessionManager.products sm !! productId); [|discriminate].
  destruct (quantity <=? 0); discriminate.
Qed.

(** C10 (as the code has it).  [addToCart] and [setBuyer] called with no
    session id, or with the empty string, create a new session ([pending],
    empty cart, id ["cs_"] followed by the random part) and run the
    operation on it; when that session is still live at the lookup which
    follows, the call does not throw "Session not found": [addToCart] of a
    catalog product with a positive quantity returns the new session holding
    that one item, [setBuyer] returns it holding the buyer.  A non-empty id
    that is unknown, or whose session has expired, makes both throw
    "Session not found or expired". *)
Theorem missing_session_id_creates_a_session
    (w : CommerceTools.t) (now_create now : Z) (rnd : string) :
  let id := generateId "cs_" rnd in
  let created := fresh now_create rnd w in
  (∀ missing,
     missing = None ∨ missing = Some "" →
     live now created →
     (∀ productId quantity,
        CommerceTools.addToCart now_create rnd now missing productId quantity w
        = CommerceTools.onSessions
            (SessionManager.addItem now id productId (default 1 quantity))
            (put id created w)
        ∧ thrown (CommerceTools.addToCart now_create rnd now missing
                    productId quantity w).1 ≠ Some SessionNotFound)
     ∧ (∀ productId quantity product,
          SessionManager.products (CommerceTools.sessionManager w) !! productId
          = Some product →
          0 < default 1 quantity →
          ∃ s',
            CommerceTools.addToCart now_create rnd now missing
              productId quantity w
            = (Ok s', put id s' w)
            ∧ CheckoutSession.id s' = id
            ∧ CheckoutSession.status s' = SessionStatus.ready
            ∧ CheckoutSession.createdAt s' = now_create
            ∧ CheckoutSession.items s'
              = [CartItem.mk (Product.id product) (default 1 quantity)
                   (Product.price product) (Product.currency product)
                   (Product.name product)])
     ∧ (∀ buyer,
          CommerceTools.setBuyer now_create rnd now missing buyer w
          = (Ok (CheckoutSession.with_buyer buyer created),
             put id (CheckoutSession.with_buyer buyer created) w)))
  ∧ (∀ sessionId productId quantity buyer,
       sessionId ≠ "" →
       stored w sessionId = None →
       CommerceTools.addToCart now_create rnd now (Some sessionId)
         productId quantity w = (Err SessionNotFound, w)
       ∧ CommerceTools.setBuyer now_create rnd now (Some sessionId) buyer w
         = (Err SessionNotFound, w))
  ∧ (∀ sessionId s productId quantity buyer,
       sessionId ≠ "" →
       stored w sessionId = Some s →
       CheckoutSession.expiresAt s < now →
       CommerceTools.addToCart now_create rnd now (Some sessionId)
         productId quantity w = (Err SessionNotFound, evict sessionId w)
       ∧ CommerceTools.setBuyer now_create rnd now (Some sessionId) buyer w
         = (Err SessionNotFound, evict sessionId w)).
Proof.
  intros id created. split; [|split].
  - intros missing Hmissing Hlive.
    assert (Hstored : stored (put id created w) id = Some created)
      by apply stored_put.
    assert (Hadd : ∀ productId quantity,
      CommerceTools.addToCart now_create rnd now missing productId quantity w
      = CommerceTools.onSessions
          (SessionManager.addItem now id productId (default 1 quantity))
          (put id created w)).
    { intros. unfold CommerceTools.addToCart.
      erewrite bind_ok by (apply resolveSession_creates, Hmissing).
      reflexivity. }
    split; [|split].
    + intros productId quantity. split; [apply Hadd|].
      rewrite Hadd. unfold CommerceTools.onSessions.
      pose proof (addItem_live_errors now id productId (default 1 quantity)
                    (CommerceTools.sessionManager (put id created w)) created
                    Hstored Hlive) as Herr.
      destruct (SessionManager.addItem _ _ _ _ _) as [res sm']. exact Herr.
    + intros productId quantity product Hproduct Hq.
      rewrite Hadd.
      eexists. split.
      * erewrite onSessions_run.
        2:{ unfold SessionManager.addItem.
            erewrite bind_ok by (eapply require_live; eassumption).
            cbn [put CommerceTools.sessionManager SessionManager.products
                 SessionManager.with_sessions].
            rewrite Hproduct. apply Z.leb_gt in Hq. rewrite Hq.
            reflexivity. }
        unfold put, SessionManager.with_sessions, SessionManager.store,
          bind, modify, ret; simpl.
        rewrite insert_insert_eq. reflexivity.
      * repeat split; reflexivity.
    + intros buyer. unfold CommerceTools.setBuyer.
      erewrite bind_ok by (apply resolveSession_creates, Hmissing).
      erewrite onSessions_run.
      2:{ unfold SessionManager.setBuyer.
          erewrite bind_ok by (eapply require_live; eassumption).
          reflexivity. }
      unfold put, SessionManager.with_sessions; simpl.
      rewrite insert_insert_eq. reflexivity.
  - intros sessionId productId quantity buyer Hne Hnone. split.
    + unfold CommerceTools.addToCart.
      erewrite bind_ok by (apply resolveSession_given, Hne).
      apply onSessions_unknown, Hnone.
    + unfold CommerceTools.setBuyer.
      erewrite bind_ok by (apply resolveSession_given, Hne).
      apply onSessions_unknown, Hnone.
  - intros sessionId s productId quantity buyer Hne Hs Hexp. split.
    + unfold CommerceTools.addToCart.
      erewrite bind_ok by (apply resolveSession_given, Hne).
      eapply onSessions_expired; eassumption.
    + unfold CommerceTools.setBuyer.
      erewrite bind_ok by (apply resolveSession_given, Hne).
      eapply onSessions_expired; eassumption.
Qed.

Lemma missing_session_id_creates_a_session_witness :
  ∃ s',
    CommerceTools.addToCart 0 "N" 0 None "test-1" (Some 2) shop
    = (Ok s', put "cs_N" s' shop)
    ∧ CheckoutSession.items s'
      = [CartItem.mk "test-1" 2 1999 usd "Test Product 1"]
    ∧ CommerceTools.addToCart 0 "N" 0 (Some "cs_unknown") "test-1" (Some 2) shop
      = (Err SessionNotFound, shop).
Proof.
  destruct (missing_session_id_creates_a_session shop 0 0 "N")
    as (Hmissing & Hunknown & _).
  destruct (Hmissing None) as (_ & Hadd & _);
    [left; reflexivity | unfold live; simpl; lia |].
  destruct (Hadd "test-1" (Some 2) book) as (s' & Hrun & _ & _ & _ & Hitems);
    [vm_compute; reflexivity | simpl; lia |].
  exists s'. split; [exact Hrun|]. split; [exact Hitems|].
  apply (Hunknown "cs_unknown" "test-1" (Some 2) alice);
    [discriminate | vm_compute; reflexivity].
Defined.

(** C10 fails as stated in two places.  The empty string is an explicitly
    supplied id that no session has, yet [addToCart] with it succeeds on a
    new session.  And with a negative TTL the session created for a call
    without id has expired when the operation looks it up, so the call
    throws "Session not found or expired". *)
Lemma empty_id_creates_and_negative_ttl_expires :
  stored shop "" = None
  ∧ CheckoutSession.id
      <$> value (CommerceTools.addToCart 0 "N" 0 (Some "") "test-1" (Some 1)
                   shop).1
    = Some "cs_N"
  ∧ CheckoutSession.id
      <$> value (CommerceTools.setBuyer 0 "N" 0 (Some "") alice shop).1
    = Some "cs_N"
  ∧ thrown (CommerceTools.addToCart 0 "N" 0 None "test-1" (Some 1)
              short_lived).1
    = Some SessionNotFound
  ∧ thrown (CommerceTools.setBuyer 0 "N" 0 None alice short_lived).1
    = Some SessionNotFound.
Proof. vm_compute. repeat split. Qed.

(* ===================================================================== *)
(** ** Cart edits on a live session *)
(* ===================================================================== *)

Lemma store_run sessionId session sm :
  SessionManager.store sessionId session sm
  = (Ok session, SessionManager.with_sessions (insert sessionId session) sm).
Proof. reflexivity. Qed.


Lemma removeItem_run now sessionId productId sm s :
  SessionManager.sessions sm !! sessionId = Some s →
  live now s →
  let s' :=
    demoted
      (SessionManager.recalculateTotals
         (CheckoutSession.with_items
            (without productId (CheckoutSession.items s)) s)) in
  SessionManager.removeItem now sessionId productId sm
  = (Ok s', SessionManager.with_sessions (insert sessionId s') sm).
Proof.
  intros Hs Hlive. unfold SessionManager.removeItem.
  erewrite bind_ok by (eapply require_live; eassumption). reflexivity.
Qed.


Lemma setBuyer_run now sessionId buyer sm s :
  SessionManager.sessions sm !! sessionId = Some s →
  live now s →
  let s' :=
    SessionManager.recalculateTotals (CheckoutSession.with_buyer buyer s) in
  SessionManager.setBuyer now sessionId buyer sm
  = (Ok s', SessionManager.with_sessions (insert sessionId s') sm).
Proof.
  intros Hs Hlive. unfold SessionManager.setBuyer.
  erewrite bind_ok by (eapply require_live; eassumption). reflexivity.
Qed.

(** *** Facts about the item list *)

Lemma find_item_has_id productId items found :
  find_item productId items = Some found →
  CartItem.productId found = productId.
Proof.
  unfold find_item. intros H. apply List.find_some in H as [_ H].
  apply bool_decide_eq_true in H. exact H.
Qed.










(** X1.  On a live session, [addItem] of a product the catalog does not
    have throws "Product not found", and of a known product with a quantity
    of zero or less throws "Quantity must be positive"; in both cases the
    session manager is left exactly as it was. *)
Theorem addItem_rejections_leave_state
    (sm : SessionManager.t) (now : Z) (sessionId productId : string)
    (quantity : Z) (s : CheckoutSession.t) :
  SessionManager.sessions sm !! sessionId = Some s →
  live now s →
  (SessionManager.products sm !! productId = None →
     SessionManager.addItem now sessionId productId quantity sm
     = (Err (ProductNotFound productId), sm))
  ∧ (∀ product,
       SessionManager.products sm !! productId = Some product →
       quantity ≤ 0 →
       SessionManager.addItem now sessionId productId quantity sm
       = (Err InvalidQuantity, sm)).
Proof.
  intros Hs Hlive. split.
  - intros Hnone. unfold SessionManager.addItem.
    erewrite bind_ok by (eapply require_live; eassumption).
    rewrite Hnone. reflexivity.
  - intros product Hp Hq. unfold SessionManager.addItem.
    erewrite bind_ok by (eapply require_live; eassumption).
    rewrite Hp. apply Z.leb_le in Hq. rewrite Hq. reflexivity.
Qed.

Lemma addItem_rejections_leave_state_witness :
  SessionManager.addItem 10 "cs_A" "no-such-product" 0 manager_A
  = (Err (ProductNotFound "no-such-product"), manager_A)
  ∧ SessionManager.addItem 10 "cs_A" "test-2" 0 manager_A
    = (Err InvalidQuantity, manager_A).
Proof.
  split.
  - apply (addItem_rejections_leave_state manager_A 10 "cs_A"
             "no-such-product" 0 session_A);
      [vm_compute; reflexivity | unfold live; simpl; lia
      | vm_compute; reflexivity].
  - apply (addItem_rejections_leave_state manager_A 10 "cs_A" "test-2" 0
             session_A) with (product := course);
      [vm_compute; reflexivity | unfold live; simpl; lia
      | vm_compute; reflexivity | lia].
Defined.



(** X3.  [updateQuantity] with a non-zero quantity for a product the live
    session does not hold throws "Item not in cart" and leaves the session
    manager exactly as it was. *)
Theorem updateQuantity_absent_item_rejected
    (sm : SessionManager.t) (now : Z) (sessionId productId : string)
    (quantity : Z) (s : CheckoutSession.t) :
  SessionManager.sessions sm !! sessionId = Some s →
  live now s →
  quantity ≠ 0 →
  find_item productId (CheckoutSession.items s) = None →
  SessionManager.updateQuantity now sessionId productId quantity sm
  = (Err ItemNotInCart, sm).
Proof.
  intros Hs Hlive Hq Habsent. unfold SessionManager.updateQuantity.
  apply Z.eqb_neq in Hq. rewrite Hq.
  erewrite bind_ok by (eapply require_live; eassumption).
  rewrite Habsent. reflexivity.
Qed.

Lemma updateQuantity_absent_item_rejected_witness :
  SessionManager.updateQuantity 10 "cs_A" "test-2" 5 manager_A
  = (Err ItemNotInCart, manager_A).
Proof.
  apply (updateQuantity_absent_item_rejected manager_A 10 "cs_A" "test-2" 5
           session_A);
    [vm_compute; reflexivity | unfold live; simpl; lia | lia | reflexivity].
Defined.



Lemma without_find productId items :
  find_item productId (without productId items) = None.
Proof.
  unfold find_item, without. induction items as [|i rest IH]; simpl;
    [reflexivity|].
  destruct (bool_decide (CartItem.productId i = productId)) eqn:E; simpl.
  - exact IH.
  - rewrite E. exact IH.
Qed.

Lemma without_without productId items :
  without productId (without productId items) = without productId items.
Proof.
  apply remove_absent, without_find.
Qed.


Lemma demoted_rest (s : CheckoutSession.t) :
  CheckoutSession.items (demoted s) = CheckoutSession.items s
  ∧ CheckoutSession.totals (demoted s) = CheckoutSession.totals s
  ∧ CheckoutSession.buyer (demoted s) = CheckoutSession.buyer s
  ∧ CheckoutSession.expiresAt (demoted s) = CheckoutSession.expiresAt s
  ∧ CheckoutSession.status (demoted s)
    = match CheckoutSession.items s with
      | [] => SessionStatus.pending
      | _ :: _ => CheckoutSession.status s
      end.
Proof.
  unfold demoted. destruct (CheckoutSession.items s) eqn:E; simpl;
    rewrite ?E; repeat split; reflexivity.
Qed.



(** X6.  [removeItem] is idempotent: on a session live at both calls,
    removing the same product a second time returns the same session as the
    first call did and leaves the state that call left. *)
Theorem removeItem_twice_is_once
    (sm : SessionManager.t) (now1 now2 : Z) (sessionId productId : string)
    (s : CheckoutSession.t) :
  SessionManager.sessions sm !! sessionId = Some s →
  live now1 s →
  live now2 s →
  let first := SessionManager.removeItem now1 sessionId productId sm in
  SessionManager.removeItem now2 sessionId productId first.2 = first.
Proof.
  intros Hs Hlive1 Hlive2. cbv zeta.
  rewrite (removeItem_run now1 sessionId productId sm s Hs Hlive1).
  cbv zeta. cbn [snd].
  set (s1 := demoted _).
  assert (Hexp : CheckoutSession.expiresAt s1 = CheckoutSession.expiresAt s).
  { unfold s1. destruct (demoted_rest
      (SessionManager.recalculateTotals
         (CheckoutSession.with_items
            (without productId (CheckoutSession.items s)) s)))
      as (_ & _ & _ & H & _). exact H. }
  erewrite removeItem_run;
    [|apply lookup_insert_eq | unfold live in *; rewrite Hexp; exact Hlive2].
  cbv zeta.
  assert (Hsame :
    demoted
      (SessionManager.recalculateTotals
         (CheckoutSession.with_items
            (without productId (CheckoutSession.items s1)) s1)) = s1).
  { assert (Hitems1 : CheckoutSession.items s1
                       = without productId (CheckoutSession.items s)).
    { unfold s1. destruct (demoted_rest
        (SessionManager.recalculateTotals
           (CheckoutSession.with_items
              (without productId (CheckoutSession.items s)) s)))
        as (H & _). exact H. }
    rewrite Hitems1, without_without. unfold s1.
    generalize (without productId (CheckoutSession.items s)). intros l.
    destruct s, l; reflexivity. }
  rewrite Hsame. f_equal.
  unfold SessionManager.with_sessions; simpl.
  rewrite insert_insert_eq. reflexivity.
Qed.

Lemma removeItem_twice_is_once_witness :
  SessionManager.removeItem 20 "cs_A" "test-1"
    (SessionManager.removeItem 10 "cs_A" "test-1" manager_A).2
  = SessionManager.removeItem 10 "cs_A" "test-1" manager_A.
Proof.
  apply (removeItem_twice_is_once manager_A 10 20 "cs_A" "test-1" session_A);
    [vm_compute; reflexivity | unfold live; simpl; lia
    | unfold live; simpl; lia].
Defined.

(** X7.  [setBuyer] on a live session records the buyer and keeps items
    and status; a second [setBuyer] overrides the first: the result and the
    state are those of the second call alone. *)
Theorem setBuyer_last_write_wins
    (sm : SessionManager.t) (now1 now2 : Z) (sessionId : string)
    (b1 b2 : BuyerInfo.t) (s : CheckoutSession.t) :
  SessionManager.sessions sm !! sessionId = Some s →
  live now1 s →
  live now2 s →
  ∃ s1,
    SessionManager.setBuyer now1 sessionId b1 sm
    = (Ok s1, SessionManager.with_sessions (insert sessionId s1) sm)
    ∧ CheckoutSession.buyer s1 = Some b1
    ∧ CheckoutSession.items s1 = CheckoutSession.items s
    ∧ CheckoutSession.status s1 = CheckoutSession.status s
    ∧ SessionManager.setBuyer now2 sessionId b2
        (SessionManager.with_sessions (insert sessionId s1) sm)
      = SessionManager.setBuyer now2 sessionId b2 sm.
Proof.
  intros Hs Hlive1 Hlive2.
  eexists. split; [apply setBuyer_run; eassumption|].
  split; [reflexivity|]. split; [reflexivity|]. split; [reflexivity|].
  rewrite (setBuyer_run now2 sessionId b2 sm s Hs Hlive2).
  erewrite setBuyer_run; [|apply lookup_insert_eq | exact Hlive2].
  cbv zeta. f_equal.
  unfold SessionManager.with_sessions; simpl.
  rewrite insert_insert_eq. reflexivity.
Qed.

Lemma setBuyer_last_write_wins_witness :
  ∃ s1,
    SessionManager.setBuyer 10 "cs_A" (BuyerInfo.mk "bob@example.com" None)
      manager_A
    = (Ok s1, SessionManager.with_sessions (insert "cs_A" s1) manager_A)
    ∧ SessionManager.setBuyer 20 "cs_A" alice
        (SessionManager.with_sessions (insert "cs_A" s1) manager_A)
      = SessionManager.setBuyer 20 "cs_A" alice manager_A.
Proof.
  destruct (setBuyer_last_write_wins manager_A 10 20 "cs_A"
              (BuyerInfo.mk "bob@example.com" None) alice session_A)
    as (s1 & Hrun & _ & _ & _ & Hlast);
    [vm_compute; reflexivity | unfold live; simpl; lia
    | unfold live; simpl; lia |].
  exists s1. split; [exact Hrun | exact Hlast].
Defined.

(* ===================================================================== *)
(** ** An induction principle for stored sessions *)
(* ===================================================================== *)

(** A property of stored sessions that holds of a new session and is kept
    by each of the field updates the operations make holds of every session
    of every state the operations can reach. *)
Section SessionInvariant.
Import SessionManager.

Variable ttl : Z.
Variable K : gmap string Product.t → Prop.
Variable P : string → CheckoutSession.t → Prop.

Hypothesis P_new : ∀ now rnd,
  P (generateId "cs_" rnd)
    (CheckoutSession.mk (generateId "cs_" rnd) SessionStatus.pending [] None
       (Totals.mk 0 0 0 0 0 usd) None now (now + ttl)).
Hypothesis P_status : ∀ k s status,
  P k s → P k (CheckoutSession.with_status status s).
Hypothesis P_buyer : ∀ k s buyer,
  P k s → P k (recalculateTotals (CheckoutSession.with_buyer buyer s)).
Hypothesis P_added : ∀ k s catalog productId quantity product,
  P k s → K catalog → catalog !! productId = Some product → 0 < quantity →
  P k (recalculateTotals
         (CheckoutSession.with_items
            (added productId quantity product (CheckoutSession.items s)) s)).
Hypothesis P_quantity : ∀ k s productId quantity found,
  P k s → find_item productId (CheckoutSession.items s) = Some found →
  quantity ≠ 0 →
  P k (recalculateTotals
         (CheckoutSession.with_items
            (set_found_quantity productId (λ _, quantity)
               (CheckoutSession.items s)) s)).
Hypothesis P_without : ∀ k s productId,
  P k s →
  P k (recalculateTotals
         (CheckoutSession.with_items
            (without productId (CheckoutSession.items s)) s)).

Let I := manager_satisfies ttl K P.
Let J := shop_satisfies ttl K P.

Lemma inv_create now rnd : triple I (create now rnd) anything.
Proof.
  intros sm (Httl & Hk & Hp). unfold create; simpl. split.
  - split; [exact Httl|]. split; [exact Hk|].
    apply map_Forall_insert_2; [|exact Hp]. rewrite Httl. apply P_new.
  - intros a _. exact Logic.I.
Qed.

Lemma inv_get now sessionId :
  triple I (get now sessionId) (λ found, ∀ s, found = Some s → P sessionId s).
Proof.
  intros sm (Httl & Hk & Hp). unfold get.
  destruct (sessions sm !! sessionId) as [session|] eqn:Hlook; simpl.
  - destruct (CheckoutSession.expiresAt session <? now); simpl.
    + split; [|intros a [= <-] s Hs; discriminate Hs].
      split; [exact Httl|]. split; [exact Hk|].
      apply map_Forall_delete, Hp.
    + split; [repeat split; assumption|]. intros a [= <-] s [= <-].
      exact (Hp _ _ Hlook).
  - split; [repeat split; assumption|]. intros a [= <-] s Hs. discriminate Hs.
Qed.

Lemma inv_require now sessionId :
  triple I (require now sessionId) (P sessionId).
Proof.
  unfold require. eapply triple_bind; [apply inv_get|].
  intros [s|] Hs; simpl.
  - apply triple_ret, Hs; reflexivity.
  - apply triple_throw.
Qed.

Lemma inv_store sessionId session :
  P sessionId session → triple I (store sessionId session) anything.
Proof.
  intros Hs sm (Httl & Hk & Hp). split.
  - split; [exact Httl|]. split; [exact Hk|].
    apply map_Forall_insert_2; assumption.
  - intros a _. exact Logic.I.
Qed.

Lemma inv_addItem now sessionId productId quantity :
  triple I (addItem now sessionId productId quantity) anything.
Proof.
  unfold addItem. eapply triple_bind; [apply inv_require|].
  intros session Hsession sm Hsm.
  destruct (products sm !! productId) as [product|] eqn:Hproduct;
    [|split; [exact Hsm | intros a Ha; discriminate Ha]].
  destruct (quantity <=? 0) eqn:Hq;
    [split; [exact Hsm | intros a Ha; discriminate Ha]|].
  apply inv_store; [|exact Hsm].
  apply Z.leb_gt in Hq. destruct Hsm as (_ & Hk & _).
  pose proof (P_added sessionId session (products sm) productId quantity
                product Hsession Hk Hproduct Hq) as Hadded.
  cbv zeta. fold (added productId quantity product
                    (CheckoutSession.items session)).
  set (s' := recalculateTotals _) in *.
  destruct (CheckoutSession.status s'), (CheckoutSession.items s');
    try exact Hadded; apply P_status, Hadded.
Qed.

Lemma inv_removeItem now sessionId productId :
  triple I (removeItem now sessionId productId) anything.
Proof.
  unfold removeItem. eapply triple_bind; [apply inv_require|].
  intros session Hsession. apply inv_store.
  pose proof (P_without sessionId session productId Hsession) as Hrem.
  cbv zeta. fold (without productId (CheckoutSession.items session)).
  set (s' := recalculateTotals _) in *.
  destruct (CheckoutSession.items s'); [apply P_status|]; exact Hrem.
Qed.

Lemma inv_updateQuantity now sessionId productId quantity :
  triple I (updateQuantity now sessionId productId quantity) anything.
Proof.
  unfold updateQuantity. destruct (quantity =? 0) eqn:Hq.
  - apply inv_removeItem.
  - eapply triple_bind; [apply inv_require|].
    intros session Hsession. apply Z.eqb_neq in Hq.
    destruct (find_item productId (CheckoutSession.items session)) eqn:Hfind.
    + apply inv_store. eapply P_quantity; eassumption.
    + apply triple_throw.
Qed.

Lemma inv_setBuyer now sessionId buyer :
  triple I (setBuyer now sessionId buyer) anything.
Proof.
  unfold setBuyer. eapply triple_bind; [apply inv_require|].
  intros session Hsession. apply inv_store, P_buyer, Hsession.
Qed.

Lemma inv_updateStatus now sessionId status :
  triple I (updateStatus now sessionId status) anything.
Proof.
  unfold updateStatus. eapply triple_bind; [apply inv_require|].
  intros session Hsession. apply inv_store, P_status, Hsession.
Qed.

Lemma inv_delete sessionId : triple I (delete sessionId) anything.
Proof.
  apply triple_modify; [|exact Logic.I].
  intros sm (Httl & Hk & Hp). split; [exact Httl|]. split; [exact Hk|].
  apply map_Forall_delete, Hp.
Qed.

Lemma inv_cleanup now : triple I (cleanup now) anything.
Proof.
  apply triple_modify; [|exact Logic.I].
  intros sm (Httl & Hk & Hp). split; [exact Httl|]. split; [exact Hk|].
  intros k s Hks. apply map_lookup_filter_Some in Hks as [Hks _].
  exact (Hp _ _ Hks).
Qed.

Lemma inv_onSessions {A} (m : M SessionManager.t A) (Q : A → Prop) :
  triple I m Q → triple J (CommerceTools.onSessions m) anything.
Proof.
  intros Hm w Hw. unfold CommerceTools.onSessions.
  destruct (Hm (CommerceTools.sessionManager w) Hw) as [Hi _].
  destruct (m (CommerceTools.sessionManager w)) as [r sm]; simpl in *.
  split; [exact Hi | intros a _; exact Logic.I].
Qed.

Lemma inv_onPayments {A} (m : M (list Effect) A) :
  triple J (CommerceTools.onPayments m) anything.
Proof.
  intros w Hw. unfold CommerceTools.onPayments.
  destruct (m (CommerceTools.effects w)) as [r log]; simpl.
  split; [exact Hw | intros a _; exact Logic.I].
Qed.

Lemma inv_frame {A} (m : M CommerceTools.t A) :
  (∀ w, CommerceTools.sessionManager (m w).2 = CommerceTools.sessionManager w) →
  triple J m anything.
Proof.
  intros Hm w Hw. split; [|intros a _; exact Logic.I].
  unfold J, shop_satisfies in *. rewrite Hm. exact Hw.
Qed.

(** Chains of session-manager calls, payment-manager calls and pure steps
    keep the invariant. *)
Ltac inv_steps :=
  repeat first
    [ apply triple_throw
    | apply triple_ret; exact Logic.I
    | apply inv_onPayments
    | eapply inv_onSessions; first
        [ apply inv_create | apply inv_get | apply inv_require
        | apply inv_addItem | apply inv_removeItem | apply inv_updateQuantity
        | apply inv_setBuyer | apply inv_updateStatus | apply inv_delete
        | apply inv_cleanup ]
    | apply triple_of_result; intros; exact Logic.I
    | apply inv_frame; intros; reflexivity
    | apply triple_catch; [|intros ?]
    | eapply triple_bind with (Q := anything); [|intros ? _] ].

Lemma inv_resolveSession now_create rnd sessionId :
  triple J (CommerceTools.resolveSession now_create rnd sessionId) anything.
Proof.
  unfold CommerceTools.resolveSession.
  destruct sessionId as [id|]; [destruct (truthy id)|]; inv_steps.
Qed.

Lemma inv_step (w : CommerceTools.t) (op : Op) :
  catalog_op K op → J w → J (step w op).
Proof.
  intros Hop Hw.
  destruct op; cbn [step];
    try (match goal with
         | |- J (after ?m w) =>
             cut (triple J m anything);
             [intros Hm; exact (proj1 (Hm w Hw))|]
         end).
  - inv_steps.
  - inv_steps.
  - unfold CommerceTools.addToCart.
    eapply triple_bind; [apply inv_resolveSession|]. intros ? _. inv_steps.
  - unfold CommerceTools.removeFromCart. inv_steps.
  - unfold CommerceTools.updateQuantity. inv_steps.
  - unfold CommerceTools.setBuyer.
    eapply triple_bind; [apply inv_resolveSession|]. intros ? _. inv_steps.
  - unfold CommerceTools.createPaymentToken, CommerceTools.requireSession.
    eapply triple_bind with (Q := anything); [inv_steps|]. intros session _.
    destruct (CheckoutSession.items session); [inv_steps|].
    destruct (_ <=? 0); inv_steps.
  - unfold CommerceTools.createPaymentLink, CommerceTools.requireSession.
    eapply triple_bind with (Q := anything); [inv_steps|]. intros session _.
    destruct (CheckoutSession.items session); [inv_steps|].
    destruct (PaymentManager.buyer_email session); inv_steps.
  - unfold CommerceTools.completeCheckout, CommerceTools.requireSession.
    eapply triple_bind with (Q := anything); [inv_steps|]. intros session _.
    destruct (CheckoutSession.items session); [inv_steps|].
    destruct (PaymentManager.buyer_email session); [|inv_steps].
    eapply triple_bind with (Q := anything); [inv_steps|]. intros s' _.
    apply triple_catch; [|intros e; inv_steps].
    eapply triple_bind with (Q := anything); [inv_steps|]. intros pi _.
    destruct (PaymentIntent.status pi); inv_steps.
  - unfold CommerceTools.cancelCheckout, CommerceTools.requireSession.
    eapply triple_bind with (Q := anything); [inv_steps|]. intros session _.
    destruct (PaymentManager.existingPaymentIntent session); inv_steps.
  - inv_steps.
  - inv_steps.
  - inv_steps.
  - destruct Hw as (Httl & _ & Hp). split; [exact Httl|].
    split; [exact Hop | exact Hp].
Qed.

Lemma inv_run (ops : list Op) (w : CommerceTools.t) :
  Forall (catalog_op K) ops → J w → J (run ops w).
Proof.
  revert w. induction ops as [|op ops IH]; intros w Hops Hw; simpl.
  - exact Hw.
  - inversion Hops; subst. apply IH; [assumption|]. apply inv_step; assumption.
Qed.

Lemma stored_session_induction (ps : list Product.t) (ttl' : option Z)
    (ops : list Op) (sessionId : string) (s : CheckoutSession.t) :
  ttl = default 3600 ttl' * 1000 →
  K (products (SessionManager.new ps ttl')) →
  Forall (catalog_op K) ops →
  stored (run ops (CommerceTools.new ps ttl')) sessionId = Some s →
  P sessionId s.
Proof.
  intros Httl Hk Hops Hs.
  assert (Hj : J (run ops (CommerceTools.new ps ttl'))).
  { apply inv_run; [exact Hops|]. split; [symmetry; exact Httl|].
    split; [exact Hk|]. simpl. apply map_Forall_empty. }
  destruct Hj as (_ & _ & Hp). exact (Hp _ _ Hs).
Qed.

End SessionInvariant.

Lemma any_op_keeps_any_catalog (ops : list Op) :
  Forall (catalog_op (λ _, True)) ops.
Proof.
  apply Forall_forall. intros op _. destruct op; exact Logic.I.
Qed.

Lemma set_found_quantity_ids productId f items :
  product_ids (set_found_quantity productId f items) = product_ids items.
Proof.
  unfold product_ids. induction items as [|i rest IH]; simpl; [reflexivity|].
  destruct (bool_decide (CartItem.productId i = productId)); simpl.
  - reflexivity.
  - rewrite IH. reflexivity.
Qed.

Lemma find_item_absent_ids productId items :
  find_item productId items = None → productId ∉ product_ids items.
Proof.
  unfold find_item, product_ids. induction items as [|i rest IH]; simpl.
  - intros _ H. inversion H.
  - destruct (bool_decide (CartItem.productId i = productId)) eqn:E;
      [discriminate|].
    intros Hrest Hin. apply bool_decide_eq_false in E.
    apply elem_of_cons in Hin as [Heq|Hin]; [congruence|].
    exact (IH Hrest Hin).
Qed.

Lemma without_ids_unique productId items :
  NoDup (product_ids items) → NoDup (product_ids (without productId items)).
Proof.
  unfold product_ids, without. induction items as [|i rest IH]; simpl.
  - intros H. exact H.
  - intros H. apply NoDup_cons in H as [Hnotin Hrest].
    destruct (bool_decide (CartItem.productId i = productId)); simpl.
    + apply IH, Hrest.
    + apply NoDup_cons. split; [|apply IH, Hrest].
      intros Hin. apply Hnotin.
      apply list_elem_of_fmap in Hin as (j & Hj & Hin).
      apply list_elem_of_fmap. exists j. split; [exact Hj|].
      apply list_elem_of_In. apply list_elem_of_In in Hin.
      apply List.filter_In in Hin as [Hin _]. exact Hin.
Qed.

Lemma added_ids_unique productId quantity product items :
  Product.id product = productId →
  NoDup (product_ids items) →
  NoDup (product_ids (added productId quantity product items)).
Proof.
  intros Hid Hnodup. unfold added.
  destruct (find_item productId items) eqn:Hfind.
  - rewrite set_found_quantity_ids. exact Hnodup.
  - unfold product_ids. rewrite map_app. simpl. rewrite Hid.
    apply NoDup_app. split; [exact Hnodup|]. split.
    + intros x Hx Hin. apply list_elem_of_singleton in Hin. subst x.
      exact (find_item_absent_ids _ _ Hfind Hx).
    + apply NoDup_singleton.
Qed.

(** X8.  No cart holds two items of one product: in every state reached
    from a new [CommerceTools] by caller-facing operations that keep the
    catalog keyed by product id, the product ids of each stored session's
    items are pairwise distinct. *)
Theorem cart_product_ids_unique
    (ps : list Product.t) (ttl : option Z) (ops : list Op)
    (sessionId : string) (s : CheckoutSession.t) :
  Forall (catalog_op keyed) ops →
  stored (run ops (CommerceTools.new ps ttl)) sessionId = Some s →
  NoDup (product_ids (CheckoutSession.items s)).
Proof.
  intros Hops Hs.
  apply (stored_session_induction (default 3600 ttl * 1000) keyed
           (λ _ s, NoDup (product_ids (CheckoutSession.items s))))
    with (ps := ps) (ttl' := ttl) (ops := ops) (sessionId := sessionId);
    try assumption; try reflexivity.
  - intros. apply NoDup_nil_2.
  - intros k s0 status H. exact H.
  - intros k s0 buyer H. exact H.
  - intros k s0 catalog productId quantity product H Hk Hp _. simpl.
    apply added_ids_unique; [exact (Hk _ _ Hp) | exact H].
  - intros k s0 productId quantity found H _ _. simpl.
    rewrite set_found_quantity_ids. exact H.
  - intros k s0 productId H. simpl. apply without_ids_unique, H.
  - intros k p Hp. exact (catalog_keyed_by_id ps ttl k p Hp).
Qed.

Lemma cart_product_ids_unique_witness :
  ∃ s,
    stored
      (run [addToCart 0 "A" 0 None "test-1" (Some 2);
            addToCart 0 "B" 1 (Some "cs_A") "test-2" (Some 1);
            addToCart 0 "C" 2 (Some "cs_A") "test-1" (Some 4)] shop) "cs_A"
    = Some s
    ∧ product_ids (CheckoutSession.items s) = ["test-1"; "test-2"]
    ∧ NoDup (product_ids (CheckoutSession.items s)).
Proof.
  eexists. split; [vm_compute; reflexivity|]. split; [reflexivity|].
  apply (cart_product_ids_unique [book; course] None
           [addToCart 0 "A" 0 None "test-1" (Some 2);
            addToCart 0 "B" 1 (Some "cs_A") "test-2" (Some 1);
            addToCart 0 "C" 2 (Some "cs_A") "test-1" (Some 4)] "cs_A").
  - repeat constructor.
  - vm_compute. reflexivity.
Defined.



(** X10.  The currency of the totals follows the first item: in every
    state reached from a new [CommerceTools] by caller-facing operations,
    a stored session's [totals.currency] is the currency of the first item
    of its cart, and [usd] when the cart is empty, whatever the currencies
    of the other items. *)
Theorem totals_currency_follows_first_item
    (ps : list Product.t) (ttl : option Z) (ops : list Op)
    (sessionId : string) (s : CheckoutSession.t) :
  stored (run ops (CommerceTools.new ps ttl)) sessionId = Some s →
  Totals.currency (CheckoutSession.totals s)
  = cart_currency (CheckoutSession.items s).
Proof.
  intros Hs.
  apply (stored_session_induction (default 3600 ttl * 1000) (λ _, True)
           (λ _ s, Totals.currency (CheckoutSession.totals s)
                   = cart_currency (CheckoutSession.items s)))
    with (ps := ps) (ttl' := ttl) (ops := ops) (sessionId := sessionId);
    try assumption; try reflexivity; try exact Logic.I;
    try (intros; assumption).
  apply any_op_keeps_any_catalog.
Qed.

Lemma totals_currency_follows_first_item_witness :
  ∃ s,
    stored
      (run [addToCart 0 "A" 0 None "test-1" (Some 2);
            setCatalog
              (<["test-2" := Product.mk "test-2" "Test Product 2" 2999 eur]>
                 repriced);
            addToCart 0 "B" 1 (Some "cs_A") "test-2" (Some 1)] shop) "cs_A"
    = Some s
    ∧ map CartItem.currency (CheckoutSession.items s) = [usd; eur]
    ∧ Totals.currency (CheckoutSession.totals s) = usd.
Proof.
  eexists. split; [vm_compute; reflexivity|]. split; [reflexivity|].
  apply (totals_currency_follows_first_item [book; course] None
           [addToCart 0 "A" 0 None "test-1" (Some 2);
            setCatalog
              (<["test-2" := Product.mk "test-2" "Test Product 2" 2999 eur]>
                 repriced);
            addToCart 0 "B" 1 (Some "cs_A") "test-2" (Some 1)] "cs_A").
  vm_compute. reflexivity.
Defined.

(* ===================================================================== *)
(** ** The session store *)
(* ===================================================================== *)

Lemma cleanup_lookup now sm sessionId :
  SessionManager.sessions (SessionManager.cleanup now sm).2 !! sessionId
  = match SessionManager.sessions sm !! sessionId with
    | Some s => if CheckoutSession.expiresAt s <? now then None else Some s
    | None => None
    end.
Proof.
  unfold SessionManager.cleanup, modify; simpl.
  destruct (SessionManager.sessions sm !! sessionId) as [s|] eqn:Hs.
  - destruct (CheckoutSession.expiresAt s <? now) eqn:Hexp.
    + apply map_lookup_filter_None. right. intros s' Hs' Hlive.
      rewrite Hs in Hs'. injection Hs' as <-. simpl in Hlive.
      apply Z.ltb_lt in Hexp. contradiction.
    + apply map_lookup_filter_Some. split; [exact Hs|]. simpl.
      apply Z.ltb_ge in Hexp. lia.
  - apply map_lookup_filter_None. left. exact Hs.
Qed.

Lemma manager_eq (a b : SessionManager.t) :
  SessionManager.sessions a = SessionManager.sessions b →
  SessionManager.products a = SessionManager.products b →
  SessionManager.sessionTTL a = SessionManager.sessionTTL b →
  a = b.
Proof. destruct a, b; simpl. intros -> -> ->. reflexivity. Qed.

(** X11.  The sweep keeps exactly the sessions that are live at its clock
    reading, unchanged, and touches neither catalog nor TTL.  Sweeping
    twice is sweeping once, and the sweep and the eviction on lookup can
    run in either order: a lookup after the sweep returns what it returned
    before it, and a sweep after a lookup leaves what the sweep alone
    leaves. *)
Theorem cleanup_and_lookup_agree
    (sm : SessionManager.t) (now : Z) (sessionId : string) :
  let swept := (SessionManager.cleanup now sm).2 in
  (∀ k, SessionManager.sessions swept !! k
        = match SessionManager.sessions sm !! k with
          | Some s => if CheckoutSession.expiresAt s <? now then None else Some s
          | None => None
          end)
  ∧ SessionManager.products swept = SessionManager.products sm
  ∧ SessionManager.sessionTTL swept = SessionManager.sessionTTL sm
  ∧ (SessionManager.cleanup now swept).2 = swept
  ∧ SessionManager.get now sessionId swept
    = ((SessionManager.get now sessionId sm).1, swept)
  ∧ (SessionManager.cleanup now (SessionManager.get now sessionId sm).2).2
    = swept.
Proof.
  cbv zeta. split; [intros k; apply cleanup_lookup|].
  split; [reflexivity|]. split; [reflexivity|].
  split; [|split].
  - apply manager_eq; try reflexivity.
    apply map_eq. intros k. rewrite !cleanup_lookup.
    destruct (SessionManager.sessions sm !! k) as [s|]; [|reflexivity].
    destruct (CheckoutSession.expiresAt s <? now) eqn:E; [reflexivity|].
    rewrite E. reflexivity.
  - unfold SessionManager.get at 1. rewrite cleanup_lookup.
    unfold SessionManager.get.
    destruct (SessionManager.sessions sm !! sessionId) as [s|]; [|reflexivity].
    destruct (CheckoutSession.expiresAt s <? now) eqn:E; [reflexivity|].
    rewrite E. reflexivity.
  - apply manager_eq; try reflexivity;
      try (unfold SessionManager.get;
           destruct (SessionManager.sessions sm !! sessionId) as [s|];
           [destruct (CheckoutSession.expiresAt s <? now)|]; reflexivity).
    apply map_eq. intros k. rewrite !cleanup_lookup.
    unfold SessionManager.get.
    destruct (SessionManager.sessions sm !! sessionId) as [s|] eqn:Hs;
      [|reflexivity].
    destruct (CheckoutSession.expiresAt s <? now) eqn:E; [|reflexivity].
    simpl. destruct (decide (sessionId = k)) as [<-|Hne].
    + rewrite lookup_delete_eq, Hs, E. reflexivity.
    + rewrite lookup_delete_ne by exact Hne. reflexivity.
Qed.

(** X12.  [create] stores the session it returns under the generated id
    and nothing else changes: the new session is [pending] with an empty
    cart, zero totals in [usd] and no buyer, a lookup returns it at every
    clock reading up to [createdAt + TTL] and evicts it after that, the
    entries under other ids are untouched, and the session count grows by
    one when the id was free and stays when the id was taken (the session
    that held it is replaced). *)
Theorem create_then_get
    (sm : SessionManager.t) (now0 : Z) (rnd : string) (now : Z) :
  let id := generateId "cs_" rnd in
  let created :=
    CheckoutSession.mk id SessionStatus.pending [] None
      (Totals.mk 0 0 0 0 0 usd) None now0
      (now0 + SessionManager.sessionTTL sm) in
  let sm' := (SessionManager.create now0 rnd sm).2 in
  (SessionManager.create now0 rnd sm).1 = Ok created
  ∧ (now ≤ now0 + SessionManager.sessionTTL sm →
     SessionManager.get now id sm' = (Ok (Some created), sm'))
  ∧ (now0 + SessionManager.sessionTTL sm < now →
     SessionManager.get now id sm'
     = (Ok None, SessionManager.with_sessions (base.delete id) sm'))
  ∧ (∀ other, other ≠ id →
       SessionManager.sessions sm' !! other
       = SessionManager.sessions sm !! other)
  ∧ (SessionManager.sessions sm !! id = None →
     SessionManager.getSessionCount sm'
     = S (SessionManager.getSessionCount sm))
  ∧ (is_Some (SessionManager.sessions sm !! id) →
     SessionManager.getSessionCount sm' = SessionManager.getSessionCount sm).
Proof.
  cbv zeta. split; [reflexivity|].
  split; [|split; [|split; [|split]]].
  - intros Hlive. apply get_live; [apply lookup_insert_eq | exact Hlive].
  - intros Hexp. eapply get_expired; [apply lookup_insert_eq | exact Hexp].
  - intros other Hne. simpl. apply lookup_insert_ne.
    intros Heq. apply Hne. symmetry. exact Heq.
  - intros Hfree. unfold SessionManager.getSessionCount; simpl.
    apply map_size_insert_None, Hfree.
  - intros [old Hold]. unfold SessionManager.getSessionCount; simpl.
    apply map_size_insert_Some. exists old. exact Hold.
Qed.

Lemma create_then_get_witness :
  SessionManager.get 3600000 "cs_N"
    (SessionManager.create 0 "N" manager_A).2
  = (Ok (Some (CheckoutSession.mk "cs_N" SessionStatus.pending [] None
                 (Totals.mk 0 0 0 0 0 usd) None 0 3600000)),
     (SessionManager.create 0 "N" manager_A).2)
  ∧ SessionManager.getSessionCount (SessionManager.create 0 "N" manager_A).2
    = S (SessionManager.getSessionCount manager_A)
  ∧ SessionManager.getSessionCount (SessionManager.create 0 "A" manager_A).2
    = SessionManager.getSessionCount manager_A.
Proof.
  destruct (create_then_get manager_A 0 "N" 3600000)
    as (_ & Hget & _ & _ & Hfree & _).
  destruct (create_then_get manager_A 0 "A" 0) as (_ & _ & _ & _ & _ & Htaken).
  split; [apply Hget; vm_compute; discriminate|].
  split; [apply Hfree; vm_compute; reflexivity|].
  apply Htaken. exists session_A. vm_compute. reflexivity.
Defined.

(** X13.  [delete] removes the entry unconditionally: afterwards a lookup
    of the id returns nothing at any clock reading and changes nothing,
    entries under other ids are untouched, deleting again changes nothing,
    and deleting the id [create] has just generated gives back the session
    map as it was when that id was free. *)
Theorem delete_then_get
    (sm : SessionManager.t) (sessionId : string) (now now0 : Z) (rnd : string) :
  let sm' := (SessionManager.delete sessionId sm).2 in
  SessionManager.get now sessionId sm' = (Ok None, sm')
  ∧ (∀ other, other ≠ sessionId →
       SessionManager.sessions sm' !! other
       = SessionManager.sessions sm !! other)
  ∧ (SessionManager.delete sessionId sm').2 = sm'
  ∧ (SessionManager.sessions sm !! generateId "cs_" rnd = None →
     (SessionManager.delete (generateId "cs_" rnd)
        (SessionManager.create now0 rnd sm).2).2 = sm).
Proof.
  cbv zeta. split; [|split; [|split]].
  - unfold SessionManager.get, SessionManager.delete, modify; simpl.
    rewrite lookup_delete_eq. reflexivity.
  - intros other Hne. simpl. apply lookup_delete_ne. congruence.
  - apply manager_eq; try reflexivity. simpl.
    apply delete_id, lookup_delete_eq.
  - intros Hfree. apply manager_eq; try reflexivity. simpl.
    rewrite delete_insert_eq. apply delete_id, Hfree.
Qed.

Lemma delete_then_get_witness :
  (SessionManager.delete "cs_N" (SessionManager.create 0 "N" manager_A).2).2
  = manager_A.
Proof.
  destruct (delete_then_get manager_A "cs_A" 0 0 "N") as (_ & _ & _ & Hback).
  apply Hback. vm_compute. reflexivity.
Defined.

(* ===================================================================== *)
(** ** What an operation leaves alone *)
(* ===================================================================== *)

Section Frame.
Import CommerceTools.

Variable I : CommerceTools.t → Prop.
Hypothesis I_sessions : ∀ w sm, I w → I (mk sm (orders w) (effects w)).

Lemma frame_onSessions {A} (m : M SessionManager.t A) :
  triple I (onSessions m) anything.
Proof.
  intros w Hw. unfold onSessions.
  destruct (m (sessionManager w)) as [r sm]; simpl.
  split; [apply I_sessions, Hw | intros a _; exact Logic.I].
Qed.

Lemma frame_resolveSession now_create rnd sessionId :
  triple I (resolveSession now_create rnd sessionId) anything.
Proof.
  unfold resolveSession.
  destruct sessionId as [id|]; [destruct (truthy id)|];
    try (apply triple_ret; exact Logic.I);
    (eapply triple_bind; [apply frame_onSessions|]; intros ? _;
     apply triple_ret; exact Logic.I).
Qed.

Lemma frame_session_op (w : CommerceTools.t) (op : Op) :
  touches_gateway op = false → I w → I (step w op).
Proof.
  intros Hop Hw. destruct op; try discriminate Hop; cbn [step];
    try (match goal with
         | |- I (after ?m w) =>
             cut (triple I m anything);
             [intros Hm; exact (proj1 (Hm w Hw))|]
         end);
    try apply frame_onSessions.
  - unfold addToCart. eapply triple_bind; [apply frame_resolveSession|].
    intros ? _. apply frame_onSessions.
  - unfold setBuyer. eapply triple_bind; [apply frame_resolveSession|].
    intros ? _. apply frame_onSessions.
  - exact (I_sessions w _ Hw).
Qed.

Hypothesis I_effects : ∀ w log, I w → I (mk (sessionManager w) (orders w) log).





End Frame.

(** X14.  The session and cart operations (creating, reading, adding,
    removing, updating quantity, setting the buyer, setting the status,
    deleting, sweeping, changing the catalog) send nothing to the gateway,
    do not invoke the fulfillment callback and file no order: the set of
    order ids stays. *)
Theorem session_operations_stay_local (w : CommerceTools.t) (op : Op) :
  touches_gateway op = false →
  CommerceTools.effects (step w op) = CommerceTools.effects w
  ∧ dom (CommerceTools.orders (step w op)) = dom (CommerceTools.orders w).
Proof.
  intros Hop.
  apply (frame_session_op
           (λ w', CommerceTools.effects w' = CommerceTools.effects w
                  ∧ dom (CommerceTools.orders w')
                    = dom (CommerceTools.orders w)));
    [intros w' sm H; exact H | exact Hop | split; reflexivity].
Qed.

Lemma session_operations_stay_local_witness :
  CommerceTools.effects
    (step paid_A (addToCart 0 "B" 6 (Some "cs_A") "test-2" (Some 1)))
  = CommerceTools.effects paid_A
  ∧ dom (CommerceTools.orders
           (step paid_A (addToCart 0 "B" 6 (Some "cs_A") "test-2" (Some 1))))
    = dom (CommerceTools.orders paid_A).
Proof.
  apply (session_operations_stay_local paid_A
           (addToCart 0 "B" 6 (Some "cs_A") "test-2" (Some 1))).
  reflexivity.
Defined.



(* ===================================================================== *)
(** ** The payment strategies: validation and failure *)
(* ===================================================================== *)

Lemma put_put sessionId s s' w :
  put sessionId s' (put sessionId s w) = put sessionId s' w.
Proof.
  unfold put, SessionManager.with_sessions; simpl.
  rewrite insert_insert_eq. reflexivity.
Qed.

Lemma no_buyer_email_spec (s : CheckoutSession.t) :
  no_buyer_email s → PaymentManager.buyer_email s = None.
Proof.
  unfold PaymentManager.buyer_email.
  intros [Hnone | (b & Hb & Hempty)].
  - rewrite Hnone. reflexivity.
  - rewrite Hb; simpl. unfold truthy. rewrite Hempty. reflexivity.
Qed.

(** X16.  Both payment strategies validate before they do anything else:
    on a live session with an empty cart they throw their empty-cart error,
    and with items but no buyer or an empty buyer email they throw "Buyer
    email is required"; in both cases the state is exactly as it was (the
    status is not touched, nothing is sent to the gateway). *)
Theorem payment_strategies_validate_first
    (cfg : CommerceTools.Config) (r : CommerceTools.Readings)
    (now now_link : Z) (sessionId spt : string)
    (successUrl cancelUrl : option string)
    (w : CommerceTools.t) (s : CheckoutSession.t) :
  stored w sessionId = Some s →
  live (CommerceTools.now_get r) s →
  live now s →
  (CheckoutSession.items s = [] →
     CommerceTools.completeCheckout cfg r sessionId spt w
     = (Err (EmptyCart "Cannot checkout with empty cart"), w)
     ∧ CommerceTools.createPaymentLink cfg now now_link sessionId
         successUrl cancelUrl w
       = (Err (EmptyCart "Cannot create payment link for empty cart"), w))
  ∧ (CheckoutSession.items s ≠ [] →
     no_buyer_email s →
     CommerceTools.completeCheckout cfg r sessionId spt w
     = (Err (MissingBuyerInfo "Buyer email is required"), w)
     ∧ CommerceTools.createPaymentLink cfg now now_link sessionId
         successUrl cancelUrl w
       = (Err (MissingBuyerInfo "Buyer email is required"), w)).
Proof.
  intros Hs Hlive Hlive'. split.
  - intros Hempty. split.
    + unfold CommerceTools.completeCheckout.
      erewrite bind_ok by (eapply requireSession_live; eassumption).
      rewrite Hempty. reflexivity.
    + unfold CommerceTools.createPaymentLink.
      erewrite bind_ok by (eapply requireSession_live; eassumption).
      rewrite Hempty. reflexivity.
  - intros Hitems Hbuyer. apply no_buyer_email_spec in Hbuyer.
    destruct (CheckoutSession.items s) as [|i rest] eqn:E; [congruence|].
    split.
    + unfold CommerceTools.completeCheckout.
      erewrite bind_ok by (eapply requireSession_live; eassumption).
      rewrite E, Hbuyer. reflexivity.
    + unfold CommerceTools.createPaymentLink.
      erewrite bind_ok by (eapply requireSession_live; eassumption).
      rewrite E, Hbuyer. reflexivity.
Qed.

Lemma payment_strategies_validate_first_witness :
  CommerceTools.completeCheckout fulfilling (at_time 1 "X") "cs_A" "spt_1"
    (run [createSession 0 "A"] shop)
  = (Err (EmptyCart "Cannot checkout with empty cart"),
     run [createSession 0 "A"] shop)
  ∧ CommerceTools.createPaymentLink fulfilling 1 1 "cs_A" None None
      (run [addToCart 0 "A" 0 None "test-1" (Some 2)] shop)
    = (Err (MissingBuyerInfo "Buyer email is required"),
       run [addToCart 0 "A" 0 None "test-1" (Some 2)] shop).
Proof.
  split.
  - edestruct (payment_strategies_validate_first fulfilling (at_time 1 "X")
                 1 1 "cs_A" "spt_1" None None (run [createSession 0 "A"] shop))
      as [Hempty _];
      [vm_compute; reflexivity | unfold live; simpl; lia
      | unfold live; simpl; lia |].
    apply Hempty. reflexivity.
  - edestruct (payment_strategies_validate_first fulfilling (at_time 1 "X")
                 1 1 "cs_A" "spt_1" None None
                 (run [addToCart 0 "A" 0 None "test-1" (Some 2)] shop))
      as [_ Hbuyer];
      [vm_compute; reflexivity | unfold live; simpl; lia
      | unfold live; simpl; lia |].
    apply Hbuyer; [discriminate | left; reflexivity].
Defined.

(** X17.  When the gateway does not confirm the token payment, the call
    throws, the session is left [failed], no order is filed and the
    callback is not invoked: a Stripe error and a payment intent in a
    status other than [succeeded] are reported as "Payment failed: ..."
    with the gateway's message or the status; any other exception is
    rethrown as it is. *)
Theorem completeCheckout_declined
    (cfg : CommerceTools.Config) (r : CommerceTools.Readings)
    (sessionId spt : string) (w : CommerceTools.t) (s : CheckoutSession.t)
    (first : CartItem.t) (rest : list CartItem.t) (b : BuyerInfo.t)
    (created : PaymentIntent.t) :
  stored w sessionId = Some s →
  live (CommerceTools.now_get r) s →
  live (CommerceTools.now_processing r) s →
  live (CommerceTools.now_failed r) s →
  CheckoutSession.items s = first :: rest →
  CheckoutSession.buyer s = Some b →
  truthy (BuyerInfo.email b) = true →
  0 < Totals.total (CheckoutSession.totals s) →
  PaymentManager.existingPaymentIntent s = None →
  Stripe.paymentIntents_create (CommerceTools.stripe cfg)
    (CheckoutSession.with_status SessionStatus.processing s) = Ok created →
  let answer :=
    Stripe.paymentIntents_confirm (CommerceTools.stripe cfg)
      (PaymentIntent.id created) spt in
  let w' := declined sessionId s created spt w in
  (∀ msg, answer = Err (StripeError msg) →
     CommerceTools.completeCheckout cfg r sessionId spt w
     = (Err (PaymentFailed msg), w'))
  ∧ (∀ pi, answer = Ok pi →
       PaymentIntent.status pi ≠ PaymentIntent.succeeded →
       CommerceTools.completeCheckout cfg r sessionId spt w
       = (Err (PaymentFailed
                 (PaymentIntent.status_name (PaymentIntent.status pi))), w'))
  ∧ (∀ e, answer = Err e → (∀ msg, e ≠ StripeError msg) →
       CommerceTools.completeCheckout cfg r sessionId spt w = (Err e, w'))
  ∧ CommerceTools.orders w' = CommerceTools.orders w
  ∧ CommerceTools.effects w'
    = CommerceTools.effects w ++ charge s created spt
  ∧ stored w' sessionId
    = Some (CheckoutSession.with_status SessionStatus.failed s).
Proof.
  intros Hs Hl1 Hl2 Hl4 Hitems Hb Hmail Htotal Hnone Hcreate. cbv zeta.
  pose proof (completeCheckout_submits cfg r sessionId spt w s first rest b
                created Hs Hl1 Hl2 Hitems Hb Hmail Htotal Hnone Hcreate)
    as Hsubmit.
  set (w2 := sent (charge s created spt)
               (put sessionId
                  (CheckoutSession.with_status SessionStatus.processing s) w))
    in Hsubmit.
  assert (Hhandler : ∀ e,
    (CommerceTools.onSessions
       (SessionManager.updateStatus (CommerceTools.now_failed r) sessionId
          SessionStatus.failed) ;; throw e) w2
    = (Err e : Result Order.t, declined sessionId s created spt w)).
  { intros e. erewrite bind_ok.
    2:{ eapply updateStatus_on_live with
          (s := CheckoutSession.with_status SessionStatus.processing s);
          [apply stored_put | exact Hl4]. }
    unfold throw, w2, declined, sent, put, SessionManager.with_sessions; simpl.
    rewrite insert_insert_eq. reflexivity. }
  split; [|split; [|split; [|split; [|split]]]].
  - intros msg Hanswer. rewrite Hsubmit, Hanswer.
    erewrite catch_err by reflexivity. apply Hhandler.
  - intros pi Hanswer Hstatus. rewrite Hsubmit, Hanswer.
    erewrite catch_err; [apply Hhandler|].
    erewrite bind_ok by reflexivity.
    destruct (PaymentIntent.status pi); try reflexivity. congruence.
  - intros e Hanswer Hother. rewrite Hsubmit, Hanswer.
    erewrite catch_err; [apply Hhandler|].
    destruct e; try reflexivity. exfalso. exact (Hother _ eq_refl).
  - reflexivity.
  - reflexivity.
  - unfold declined. rewrite stored_sent. apply stored_put.
Qed.

Lemma completeCheckout_declined_witness :
  CommerceTools.completeCheckout with_declining (at_time 5 "X") "cs_A" "spt_1"
    cart_A
  = (Err (PaymentFailed "Your card was declined."),
     declined "cs_A" session_A
       (PaymentIntent.mk "pi_cs_A" PaymentIntent.requires_payment_method)
       "spt_1" cart_A).
Proof.
  edestruct (completeCheckout_declined with_declining (at_time 5 "X") "cs_A"
               "spt_1" cart_A session_A)
    as (Hstripe & _).
  - vm_compute; reflexivity.
  - unfold live; simpl; lia.
  - unfold live; simpl; lia.
  - unfold live; simpl; lia.
  - reflexivity.
  - reflexivity.
  - reflexivity.
  - simpl; lia.
  - reflexivity.
  - reflexivity.
  - apply Hstripe. reflexivity.
Defined.

(** X18.  A token payment for a cart whose total is zero or less (free
    products, negative quantities) never reaches the gateway: the status is
    set to [processing], creating the payment intent throws "Total must be
    greater than 0", and the session is left [failed] with nothing sent and
    no order filed. *)
Theorem completeCheckout_without_positive_total
    (cfg : CommerceTools.Config) (r : CommerceTools.Readings)
    (sessionId spt : string) (w : CommerceTools.t) (s : CheckoutSession.t)
    (first : CartItem.t) (rest : list CartItem.t) (b : BuyerInfo.t) :
  stored w sessionId = Some s →
  live (CommerceTools.now_get r) s →
  live (CommerceTools.now_processing r) s →
  live (CommerceTools.now_failed r) s →
  CheckoutSession.items s = first :: rest →
  CheckoutSession.buyer s = Some b →
  truthy (BuyerInfo.email b) = true →
  Totals.total (CheckoutSession.totals s) ≤ 0 →
  PaymentManager.existingPaymentIntent s = None →
  CommerceTools.completeCheckout cfg r sessionId spt w
  = (Err TotalNotPositive,
     put sessionId (CheckoutSession.with_status SessionStatus.failed s) w).
Proof.
  intros Hs Hl1 Hl2 Hl4 Hitems Hb Hmail Htotal Hnone.
  assert (Hemail : PaymentManager.buyer_email s = Some (BuyerInfo.email b)).
  { unfold PaymentManager.buyer_email. rewrite Hb; simpl.
    rewrite Hmail. reflexivity. }
  unfold CommerceTools.completeCheckout.
  erewrite bind_ok by (eapply requireSession_live; eassumption).
  rewrite Hitems, Hemail.
  erewrite bind_ok by (eapply updateStatus_on_live; eassumption).
  set (sp := CheckoutSession.with_status SessionStatus.processing s).
  erewrite catch_err.
  2:{ eapply bind_err. eapply onPayments_run.
      unfold PaymentManager.processSharedPaymentToken,
        PaymentManager.createPaymentIntent.
      change (PaymentManager.existingPaymentIntent sp)
        with (PaymentManager.existingPaymentIntent s).
      rewrite Hnone.
      change (CheckoutSession.items sp) with (CheckoutSession.items s).
      change (CheckoutSession.totals sp) with (CheckoutSession.totals s).
      rewrite Hitems. apply Z.leb_le in Htotal. rewrite Htotal.
      reflexivity. }
  erewrite bind_ok.
  2:{ eapply updateStatus_on_live with (s := sp);
        [unfold stored; simpl; apply lookup_insert_eq | exact Hl4]. }
  unfold throw. f_equal.
  unfold put, SessionManager.with_sessions; simpl.
  rewrite insert_insert_eq. reflexivity.
Qed.

Lemma completeCheckout_without_positive_total_witness :
  CommerceTools.completeCheckout fulfilling (at_time 5 "X") "cs_A" "spt_1"
    cart_free
  = (Err TotalNotPositive,
     put "cs_A"
       (CheckoutSession.with_status SessionStatus.failed session_free)
       cart_free).
Proof.
  eapply (completeCheckout_without_positive_total fulfilling (at_time 5 "X")
            "cs_A" "spt_1" cart_free session_free).
  - vm_compute; reflexivity.
  - unfold live; simpl; lia.
  - unfold live; simpl; lia.
  - unfold live; simpl; lia.
  - reflexivity.
  - reflexivity.
  - reflexivity.
  - simpl; lia.
  - reflexivity.
Defined.

(** X19.  If the session expires while the gateway answers, the payment is
    taken and the order is filed, but the status update finds the session
    expired: the session is evicted, the callback is not invoked, and the
    call throws "Session not found or expired" although the order is on
    file. *)
Theorem completeCheckout_expiring_during_payment
    (cfg : CommerceTools.Config) (r : CommerceTools.Readings)
    (sessionId spt : string) (w : CommerceTools.t) (s : CheckoutSession.t)
    (first : CartItem.t) (rest : list CartItem.t) (b : BuyerInfo.t)
    (created pi : PaymentIntent.t) :
  stored w sessionId = Some s →
  live (CommerceTools.now_get r) s →
  live (CommerceTools.now_processing r) s →
  CheckoutSession.expiresAt s < CommerceTools.now_completed r →
  CheckoutSession.items s = first :: rest →
  CheckoutSession.buyer s = Some b →
  truthy (BuyerInfo.email b) = true →
  0 < Totals.total (CheckoutSession.totals s) →
  PaymentManager.existingPaymentIntent s = None →
  Stripe.paymentIntents_create (CommerceTools.stripe cfg)
    (CheckoutSession.with_status SessionStatus.processing s) = Ok created →
  Stripe.paymentIntents_confirm (CommerceTools.stripe cfg)
    (PaymentIntent.id created) spt = Ok pi →
  PaymentIntent.status pi = PaymentIntent.succeeded →
  let order := orderOf r s b pi in
  let w' := orphaned sessionId s created spt order w in
  CommerceTools.completeCheckout cfg r sessionId spt w
  = (Err SessionNotFound, w')
  ∧ CommerceTools.getOrder (Order.id order) w' = Some order
  ∧ stored w' sessionId = None
  ∧ OnPurchase order ∉ charge s created spt.
Proof.
  intros Hs Hl1 Hl2 Hexp Hitems Hb Hmail Htotal Hnone Hcreate Hconfirm Hsucc.
  cbv zeta. split; [|split; [|split]].
  - rewrite (completeCheckout_submits cfg r sessionId spt w s first rest b
               created Hs Hl1 Hl2 Hitems Hb Hmail Htotal Hnone Hcreate).
    rewrite Hconfirm.
    set (w2 := sent _ _).
    assert (Horder :
      PaymentManager.createOrderFromSession (CommerceTools.order_rnd r)
        (CommerceTools.now_paidAt r) (CommerceTools.now_createdAt r)
        (CheckoutSession.with_status SessionStatus.processing s) pi
      = Ok (orderOf r s b pi)).
    { unfold PaymentManager.createOrderFromSession; simpl.
      rewrite Hb, Hsucc. reflexivity. }
    erewrite catch_err.
    2:{ erewrite bind_ok by reflexivity. rewrite Hsucc.
        erewrite bind_ok by (unfold of_result; rewrite Horder; reflexivity).
        erewrite bind_ok by reflexivity.
        eapply bind_err.
        eapply onSessions_expired with
          (s := CheckoutSession.with_status SessionStatus.processing s);
          [apply stored_put | exact Hexp]. }
    erewrite bind_err.
    2:{ apply onSessions_unknown.
        unfold stored, evict, SessionManager.with_sessions; simpl.
        apply lookup_delete_eq. }
    f_equal.
    unfold evict, orphaned, w2, sent, put, SessionManager.with_sessions; simpl.
    rewrite delete_insert_eq. reflexivity.
  - unfold CommerceTools.getOrder, orphaned; simpl. apply lookup_insert_eq.
  - unfold stored, orphaned, SessionManager.with_sessions; simpl.
    apply lookup_delete_eq.
  - unfold charge. intros Hin.
    apply elem_of_cons in Hin as [Heq|Hin]; [discriminate Heq|].
    apply elem_of_cons in Hin as [Heq|Hin]; [discriminate Heq|].
    inversion Hin.
Qed.

Lemma completeCheckout_expiring_during_payment_witness :
  CommerceTools.completeCheckout fulfilling
    (CommerceTools.mkReadings 5 5 "X" 3600001 3600001 3600001 3600001)
    "cs_A" "spt_1" cart_A
  = (Err SessionNotFound,
     orphaned "cs_A" session_A
       (PaymentIntent.mk "pi_cs_A" PaymentIntent.requires_payment_method)
       "spt_1"
       (orderOf (CommerceTools.mkReadings 5 5 "X" 3600001 3600001 3600001
                   3600001)
          session_A alice (PaymentIntent.mk "pi_cs_A" PaymentIntent.succeeded))
       cart_A).
Proof.
  edestruct (completeCheckout_expiring_during_payment fulfilling
               (CommerceTools.mkReadings 5 5 "X" 3600001 3600001 3600001
                  3600001)
               "cs_A" "spt_1" cart_A session_A)
    as (Hrun & _).
  - vm_compute; reflexivity.
  - unfold live; simpl; lia.
  - unfold live; simpl; lia.
  - simpl; lia.
  - reflexivity.
  - reflexivity.
  - reflexivity.
  - simpl; lia.
  - reflexivity.
  - reflexivity.
  - reflexivity.
  - reflexivity.
  - exact Hrun.
Defined.

(** X20.  The token strategy is blind to the status: on a live session
    with items and a buyer email, [completeCheckout] returns the same
    result and leaves the same state whatever status the session had when
    it was called. *)
Theorem completeCheckout_ignores_current_status
    (cfg : CommerceTools.Config) (r : CommerceTools.Readings)
    (sessionId spt : string) (w : CommerceTools.t) (s : CheckoutSession.t)
    (first : CartItem.t) (rest : list CartItem.t) (b : BuyerInfo.t)
    (status : SessionStatus.t) :
  stored w sessionId = Some s →
  live (CommerceTools.now_get r) s →
  live (CommerceTools.now_processing r) s →
  CheckoutSession.items s = first :: rest →
  CheckoutSession.buyer s = Some b →
  truthy (BuyerInfo.email b) = true →
  CommerceTools.completeCheckout cfg r sessionId spt
    (put sessionId (CheckoutSession.with_status status s) w)
  = CommerceTools.completeCheckout cfg r sessionId spt w.
Proof.
  intros Hs Hl1 Hl2 Hitems Hb Hmail.
  assert (Hemail : ∀ st,
    PaymentManager.buyer_email (CheckoutSession.with_status st s)
    = Some (BuyerInfo.email b)).
  { intros st. unfold PaymentManager.buyer_email; simpl. rewrite Hb; simpl.
    rewrite Hmail. reflexivity. }
  assert (Hemail' : PaymentManager.buyer_email s = Some (BuyerInfo.email b)).
  { unfold PaymentManager.buyer_email. rewrite Hb; simpl.
    rewrite Hmail. reflexivity. }
  unfold CommerceTools.completeCheckout.
  erewrite (bind_ok (CommerceTools.requireSession _ _) _
              (put sessionId (CheckoutSession.with_status status s) w)).
  2:{ eapply requireSession_live; [apply stored_put | exact Hl1]. }
  erewrite (bind_ok (CommerceTools.requireSession _ _) _ w)
    by (eapply requireSession_live; eassumption).
  change (CheckoutSession.items (CheckoutSession.with_status status s))
    with (CheckoutSession.items s).
  rewrite Hitems, Hemail, Hemail'.
  erewrite (bind_ok (CommerceTools.onSessions _) _
              (put sessionId (CheckoutSession.with_status status s) w)).
  2:{ eapply updateStatus_on_live; [apply stored_put | exact Hl2]. }
  erewrite (bind_ok (CommerceTools.onSessions _) _ w)
    by (eapply updateStatus_on_live; eassumption).
  rewrite put_put. reflexivity.
Qed.

Lemma completeCheckout_ignores_current_status_witness :
  CommerceTools.completeCheckout fulfilling (at_time 5 "X") "cs_A" "spt_1"
    (put "cs_A"
       (CheckoutSession.with_status SessionStatus.cancelled session_A) cart_A)
  = CommerceTools.completeCheckout fulfilling (at_time 5 "X") "cs_A" "spt_1"
      cart_A.
Proof.
  eapply (completeCheckout_ignores_current_status fulfilling (at_time 5 "X")
            "cs_A" "spt_1" cart_A session_A).
  - vm_compute; reflexivity.
  - unfold live; simpl; lia.
  - unfold live; simpl; lia.
  - reflexivity.
  - reflexivity.
  - reflexivity.
Defined.

Lemma requireSession_cases now sessionId w :
  (stored w sessionId = None
   ∧ CommerceTools.requireSession now sessionId w = (Err SessionNotFound, w))
  ∨ (∃ s, stored w sessionId = Some s
          ∧ CheckoutSession.expiresAt s < now
          ∧ CommerceTools.requireSession now sessionId w
            = (Err SessionNotFound, evict sessionId w))
  ∨ (∃ s, stored w sessionId = Some s
          ∧ live now s
          ∧ CommerceTools.requireSession now sessionId w = (Ok s, w)).
Proof.
  destruct (stored w sessionId) as [s|] eqn:Hs.
  - destruct (Z.lt_ge_cases (CheckoutSession.expiresAt s) now) as [Hexp|Hlive].
    + right. left. exists s. split; [reflexivity|]. split; [exact Hexp|].
      exact (requireSession_expired now sessionId w s Hs Hexp).
    + right. right. exists s. split; [reflexivity|]. split; [exact Hlive|].
      exact (requireSession_live now sessionId w s Hs Hlive).
  - left. split; [reflexivity|].
    unfold CommerceTools.requireSession.
    erewrite onSessions_run by (apply require_unknown; exact Hs).
    destruct w; reflexivity.
Qed.

Lemma onPayments_keeps {A} (m : M (list Effect) A) w :
  CommerceTools.sessionManager (CommerceTools.onPayments m w).2
  = CommerceTools.sessionManager w
  ∧ CommerceTools.orders (CommerceTools.onPayments m w).2
    = CommerceTools.orders w.
Proof.
  unfold CommerceTools.onPayments. destruct (m (CommerceTools.effects w)).
  split; reflexivity.
Qed.

(** X21.  Asking for a payment link or a payment token never changes a
    session and never files an order, whatever the gateway answers: the
    session manager and the orders are left as they were, except that a
    call naming an expired session evicts it and throws "Session not found
    or expired".  In particular the redirect strategy never sets the status
    to [processing]. *)
Theorem link_and_token_requests_leave_sessions
    (cfg : CommerceTools.Config) (now now' : Z) (sessionId : string)
    (successUrl cancelUrl paymentMethodId : option string)
    (card : CommerceTools.CardArgs) (w : CommerceTools.t) :
  let link :=
    CommerceTools.createPaymentLink cfg now now' sessionId successUrl
      cancelUrl w in
  let token :=
    CommerceTools.createPaymentToken cfg now now' sessionId paymentMethodId
      card w in
  (CommerceTools.sessionManager link.2 = CommerceTools.sessionManager w
   ∧ CommerceTools.orders link.2 = CommerceTools.orders w
   ∨ ∃ s, stored w sessionId = Some s
          ∧ CheckoutSession.expiresAt s < now
          ∧ link = (Err SessionNotFound, evict sessionId w))
  ∧ (CommerceTools.sessionManager token.2 = CommerceTools.sessionManager w
     ∧ CommerceTools.orders token.2 = CommerceTools.orders w
     ∨ ∃ s, stored w sessionId = Some s
            ∧ CheckoutSession.expiresAt s < now
            ∧ token = (Err SessionNotFound, evict sessionId w)).
Proof.
  cbv zeta. split.
  - unfold CommerceTools.createPaymentLink.
    destruct (requireSession_cases now sessionId w)
      as [(_ & Hreq) | [(s & Hs & Hexp & Hreq) | (s & Hs & Hlive & Hreq)]].
    + left. rewrite (bind_err _ _ _ _ _ Hreq). split; reflexivity.
    + right. exists s. split; [exact Hs|]. split; [exact Hexp|].
      eapply bind_err, Hreq.
    + left. rewrite (bind_ok _ _ _ _ _ Hreq).
      destruct (CheckoutSession.items s); [split; reflexivity|].
      destruct (PaymentManager.buyer_email s); [|split; reflexivity].
      unfold bind.
      pose proof (onPayments_keeps
                    (PaymentManager.createCheckoutSession
                       (CommerceTools.stripe cfg) now' s successUrl cancelUrl)
                    w) as Hkeep.
      destruct (CommerceTools.onPayments _ w) as [[a|e] w']; exact Hkeep.
  - unfold CommerceTools.createPaymentToken.
    destruct (requireSession_cases now sessionId w)
      as [(_ & Hreq) | [(s & Hs & Hexp & Hreq) | (s & Hs & Hlive & Hreq)]].
    + left. rewrite (bind_err _ _ _ _ _ Hreq). split; reflexivity.
    + right. exists s. split; [exact Hs|]. split; [exact Hexp|].
      eapply bind_err, Hreq.
    + left. rewrite (bind_ok _ _ _ _ _ Hreq).
      destruct (CheckoutSession.items s); [split; reflexivity|].
      destruct (_ <=? 0); [split; reflexivity|].
      apply onPayments_keeps.
Qed.

Lemma createSharedPaymentToken_with_method stripe now s id card log :
  truthy id = true →
  PaymentManager.createSharedPaymentToken stripe now s
    (PaymentManager.mkTokenInput (Some id) card) log
  = (token_outcome
       (Stripe.fetch_granted_tokens stripe id
          (Totals.currency (CheckoutSession.totals s))
          (Totals.total (CheckoutSession.totals s))
          (now `div` 1000 + 30 * 60)),
     log ++ [GrantedTokenRequest id (Totals.total (CheckoutSession.totals s))]).
Proof.
  intros Hid. unfold PaymentManager.createSharedPaymentToken; simpl.
  rewrite Hid.
  unfold catch, bind, emit, modify, of_result, ret, throw, token_outcome.
  destruct (Stripe.fetch_granted_tokens _ _ _ _ _) as [[tok|msg]|[]];
    reflexivity.
Qed.

(** X22.  [createPaymentToken] on a live session: an empty cart and a
    total of zero or less are rejected with nothing sent; with a non-empty
    payment method id the card arguments are ignored, the token endpoint is
    asked once for a token limited to the session's total and currency and
    expiring in 30 minutes, and its answer is reported (a token, "Stripe
    API error: ...", "Failed to create payment token: ..."); with no usable
    method id and incomplete card arguments the call throws "Must provide
    either paymentMethodId or cardDetails" with nothing sent. *)
Theorem createPaymentToken_behaviour
    (cfg : CommerceTools.Config) (now now_token : Z) (sessionId : string)
    (card : CommerceTools.CardArgs) (w : CommerceTools.t)
    (s : CheckoutSession.t) :
  stored w sessionId = Some s →
  live now s →
  (CheckoutSession.items s = [] →
     ∀ pm, CommerceTools.createPaymentToken cfg now now_token sessionId pm
             card w
           = (Err (EmptyCart "Cannot create payment token for empty cart"), w))
  ∧ (CheckoutSession.items s ≠ [] →
     Totals.total (CheckoutSession.totals s) ≤ 0 →
     ∀ pm, CommerceTools.createPaymentToken cfg now now_token sessionId pm
             card w
           = (Err TotalNotPositive, w))
  ∧ (CheckoutSession.items s ≠ [] →
     0 < Totals.total (CheckoutSession.totals s) →
     (∀ id, truthy id = true →
        CommerceTools.createPaymentToken cfg now now_token sessionId (Some id)
          card w
        = (token_outcome
             (Stripe.fetch_granted_tokens (CommerceTools.stripe cfg) id
                (Totals.currency (CheckoutSession.totals s))
                (Totals.total (CheckoutSession.totals s))
                (now_token `div` 1000 + 30 * 60)),
           sent [GrantedTokenRequest id
                   (Totals.total (CheckoutSession.totals s))] w))
     ∧ (∀ pm, pm = None ∨ pm = Some "" →
          CommerceTools.cardDetailsOf card = None →
          CommerceTools.createPaymentToken cfg now now_token sessionId pm
            card w
          = (Err MissingPaymentMethod, w))).
Proof.
  intros Hs Hlive.
  pose proof (requireSession_live now sessionId w s Hs Hlive) as Hreq.
  split; [|split].
  - intros Hempty pm. unfold CommerceTools.createPaymentToken.
    rewrite (bind_ok _ _ _ _ _ Hreq). rewrite Hempty. reflexivity.
  - intros Hitems Htotal pm. unfold CommerceTools.createPaymentToken.
    rewrite (bind_ok _ _ _ _ _ Hreq).
    destruct (CheckoutSession.items s); [congruence|].
    apply Z.leb_le in Htotal. rewrite Htotal. reflexivity.
  - intros Hitems Htotal. apply Z.leb_gt in Htotal. split.
    + intros id Hid. unfold CommerceTools.createPaymentToken.
      rewrite (bind_ok _ _ _ _ _ Hreq).
      destruct (CheckoutSession.items s); [congruence|].
      rewrite Htotal.
      erewrite onPayments_run
        by (apply createSharedPaymentToken_with_method; exact Hid).
      reflexivity.
    + intros pm Hpm Hcard. unfold CommerceTools.createPaymentToken.
      rewrite (bind_ok _ _ _ _ _ Hreq).
      destruct (CheckoutSession.items s); [congruence|].
      rewrite Htotal, Hcard.
      destruct Hpm as [-> | ->]; destruct w; reflexivity.
Qed.

Lemma createPaymentToken_behaviour_witness :
  CommerceTools.createPaymentToken fulfilling 10 10 "cs_A" (Some "pm_card_visa")
    (CommerceTools.mkCardArgs (Some "4242424242424242") (Some 12) (Some 2030)
       (Some "123")) cart_A
  = (Ok "spt_1", sent [GrantedTokenRequest "pm_card_visa" 3998] cart_A)
  ∧ CommerceTools.createPaymentToken fulfilling 10 10 "cs_A" None
      (CommerceTools.mkCardArgs (Some "4242424242424242") None None None)
      cart_A
    = (Err MissingPaymentMethod, cart_A).
Proof.
  edestruct (createPaymentToken_behaviour fulfilling 10 10 "cs_A"
               (CommerceTools.mkCardArgs (Some "4242424242424242") (Some 12)
                  (Some 2030) (Some "123")) cart_A session_A)
    as (_ & _ & Hvalid);
    [vm_compute; reflexivity | unfold live; simpl; lia |].
  edestruct (createPaymentToken_behaviour fulfilling 10 10 "cs_A"
               (CommerceTools.mkCardArgs (Some "4242424242424242") None None
                  None) cart_A session_A)
    as (_ & _ & Hvalid');
    [vm_compute; reflexivity | unfold live; simpl; lia |].
  destruct Hvalid as [Hmethod _]; [discriminate | simpl; lia |].
  destruct Hvalid' as [_ Hneither]; [discriminate | simpl; lia |].
  split.
  - apply (Hmethod "pm_card_visa"). reflexivity.
  - apply Hneither; [left; reflexivity | reflexivity].
Defined.

(* ===================================================================== *)
(** ** Catalog and configuration *)
(* ===================================================================== *)

Lemma find_app_first {A} (f : A → bool) (l l' : list A) :
  List.find f (l ++ l')
  = match List.find f l with
    | Some x => Some x
    | None => List.find f l'
    end.
Proof.
  induction l as [|x l IH]; simpl; [reflexivity|].
  destruct (f x); [reflexivity | exact IH].
Qed.

Lemma catalog_fold productId (ps : list Product.t)
    (m : gmap string Product.t) :
  foldl (λ m p, <[Product.id p := p]> m) m ps !! productId
  = match CommerceTools.getProduct (rev ps) productId with
    | Some p => Some p
    | None => m !! productId
    end.
Proof.
  unfold CommerceTools.getProduct. revert m.
  induction ps as [|x ps IH]; intros m; simpl; [reflexivity|].
  rewrite IH, find_app_first.
  destruct (List.find _ (rev ps)); [reflexivity|]. simpl.
  destruct (bool_decide (Product.id x = productId)) eqn:E.
  - apply bool_decide_eq_true in E. rewrite E. apply lookup_insert_eq.
  - apply bool_decide_eq_false in E. apply lookup_insert_ne, E.
Qed.

Lemma getProduct_none productId (ps : list Product.t) :
  productId ∉ map Product.id ps →
  CommerceTools.getProduct ps productId = None.
Proof.
  unfold CommerceTools.getProduct. induction ps as [|x ps IH]; simpl;
    [reflexivity|].
  intros Hnotin.
  destruct (bool_decide (Product.id x = productId)) eqn:E.
  - apply bool_decide_eq_true in E. exfalso. apply Hnotin.
    apply elem_of_cons. left. symmetry. exact E.
  - apply IH. intros Hin. apply Hnotin. apply elem_of_cons. right. exact Hin.
Qed.

Lemma getProduct_rev productId (ps : list Product.t) :
  NoDup (map Product.id ps) →
  CommerceTools.getProduct (rev ps) productId
  = CommerceTools.getProduct ps productId.
Proof.
  induction ps as [|x ps IH]; [reflexivity|].
  intros Hnodup. simpl in Hnodup. apply NoDup_cons in Hnodup as [Hx Hrest].
  change (rev (x :: ps)) with (rev ps ++ [x]).
  unfold CommerceTools.getProduct in *. rewrite find_app_first.
  rewrite (IH Hrest). simpl.
  destruct (bool_decide (Product.id x = productId)) eqn:E.
  - apply bool_decide_eq_true in E. subst productId.
    pose proof (getProduct_none (Product.id x) ps Hx) as Hnone.
    unfold CommerceTools.getProduct in Hnone. rewrite Hnone. reflexivity.
  - destruct (List.find _ ps); reflexivity.
Qed.

(** X23.  The catalog map the session manager builds holds, for each id,
    the last product of the configured array with that id, while
    [getProduct] returns the first; when the product ids of the array are
    pairwise distinct the two lookups agree on every id. *)
Theorem catalog_holds_last_product_per_id
    (ps : list Product.t) (ttl : option Z) (productId : string) :
  SessionManager.products (SessionManager.new ps ttl) !! productId
  = CommerceTools.getProduct (rev ps) productId
  ∧ (NoDup (map Product.id ps) →
     SessionManager.products (SessionManager.new ps ttl) !! productId
     = CommerceTools.getProduct ps productId).
Proof.
  assert (Hlast :
    SessionManager.products (SessionManager.new ps ttl) !! productId
    = CommerceTools.getProduct (rev ps) productId).
  { unfold SessionManager.new; simpl. rewrite catalog_fold.
    destruct (CommerceTools.getProduct (rev ps) productId); [reflexivity|].
    apply lookup_empty. }
  split; [exact Hlast|].
  intros Hnodup. rewrite Hlast. apply getProduct_rev, Hnodup.
Qed.

Lemma catalog_holds_last_product_per_id_witness :
  SessionManager.products (SessionManager.new [book; course] None) !! "test-2"
  = CommerceTools.getProduct [book; course] "test-2".
Proof.
  apply (catalog_holds_last_product_per_id [book; course] None "test-2").
  repeat constructor; simpl; intros H;
    repeat (apply elem_of_cons in H as [H|H]; [discriminate H|]);
    inversion H.
Defined.

Lemma truthy_spec (s : string) : truthy s = true ↔ s ≠ "".
Proof.
  unfold truthy. destruct (bool_decide (s = "")) eqn:E; simpl.
  - apply bool_decide_eq_true in E. split; [discriminate | congruence].
  - apply bool_decide_eq_false in E. split; [intros _; exact E | reflexivity].
Qed.

Lemma validateProduct_spec (p : ProductInput.t) :
  validateProduct p = Ok tt ↔ valid_product p.
Proof.
  unfold validateProduct, valid_product.
  destruct (truthy (ProductInput.id p)) eqn:E1; simpl.
  2:{ split; [discriminate|]. intros (H & _).
      apply truthy_spec in H. congruence. }
  destruct (truthy (ProductInput.name p)) eqn:E2; simpl.
  2:{ split; [discriminate|]. intros (_ & H & _).
      apply truthy_spec in H. congruence. }
  destruct (truthy (ProductInput.description p)) eqn:E3; simpl.
  2:{ split; [discriminate|]. intros (_ & _ & H & _).
      apply truthy_spec in H. congruence. }
  destruct (ProductInput.price p <? 0) eqn:E4.
  { split; [discriminate|]. intros (_ & _ & _ & H & _).
    apply Z.ltb_lt in E4. lia. }
  destruct (bool_decide (ProductInput.type p = "digital")) eqn:E5;
    destruct (bool_decide (ProductInput.type p = "physical")) eqn:E5'; simpl.
  4:{ split; [discriminate|]. intros (_ & _ & _ & _ & [H|H] & _).
      - apply bool_decide_eq_false in E5. contradiction.
      - apply bool_decide_eq_false in E5'. contradiction. }
  all: destruct (truthy (ProductInput.currency p)) eqn:E6; simpl.
  all: try (split; [discriminate|]; intros (_ & _ & _ & _ & _ & H);
            apply truthy_spec in H; congruence).
  all: split; [intros _|reflexivity].
  all: apply truthy_spec in E1, E2, E3, E6; apply Z.ltb_ge in E4.
  all: repeat split; try assumption.
  - left. apply bool_decide_eq_true in E5. exact E5.
  - left. apply bool_decide_eq_true in E5. exact E5.
  - right. apply bool_decide_eq_true in E5'. exact E5'.
Qed.

Lemma validateProducts_spec (index : nat) (ps : list ProductInput.t) :
  validateProducts index ps = Ok tt ↔ Forall valid_product ps.
Proof.
  revert index. induction ps as [|p ps IH]; intros index; simpl.
  - split; [intros _; constructor | reflexivity].
  - destruct (validateProduct p) as [[]|e] eqn:E.
    + rewrite IH. split.
      * intros H. constructor; [apply validateProduct_spec, E | exact H].
      * intros H. inversion H; assumption.
    + split; [discriminate|]. intros H. inversion H as [|? ? Hp _]; subst.
      apply validateProduct_spec in Hp. congruence.
Qed.

Lemma validateProducts_first_invalid (index : nat)
    (ps : list ProductInput.t) (i : nat) (p : ProductInput.t) (e : Error) :
  ps !! i = Some p →
  validateProduct p = Err e →
  Forall valid_product (take i ps) →
  validateProducts index ps
  = Err (Thrown ("Invalid product at index " +:+ pretty (index + i)%nat
                 +:+ ": " +:+ message e)).
Proof.
  revert index i. induction ps as [|x ps IH]; intros index i Hp He Hbefore.
  - discriminate Hp.
  - destruct i as [|i]; simpl in *.
    + injection Hp as ->. rewrite He. rewrite Nat.add_0_r. reflexivity.
    + inversion Hbefore as [|? ? Hx Hrest]; subst.
      apply validateProduct_spec in Hx. rewrite Hx.
      rewrite (IH (S index) i Hp He Hrest).
      replace (S index + i)%nat with (index + S i)%nat by lia. reflexivity.
Qed.

(** X24.  [validateConfig] accepts a configuration exactly when it has a
    non-empty product array whose products all have an id, a name, a
    description, a non-negative price, type "digital" or "physical" and a
    currency, a Stripe secret key starting with "sk_", and an [onPurchase]
    function.  When some product is invalid, the error names the index of
    the first invalid product and the reason [validateProduct] gives for
    it. *)
Theorem validateConfig_accepts_exactly_valid_configurations
    (config : ConfigInput.t) :
  (validateConfig config = Ok tt
   ↔ (∃ ps, ConfigInput.products config = Some ps
            ∧ ps ≠ [] ∧ Forall valid_product ps)
     ∧ (∃ key, ConfigInput.secretKey config = Some key
               ∧ String.prefix "sk_" key = true)
     ∧ ConfigInput.onPurchase config = true)
  ∧ (∀ ps i p e,
       ConfigInput.products config = Some ps →
       ps !! i = Some p →
       validateProduct p = Err e →
       Forall valid_product (take i ps) →
       validateConfig config
       = Err (Thrown ("Invalid product at index " +:+ pretty i +:+ ": "
                      +:+ message e))).
Proof.
  split.
  - unfold validateConfig.
    destruct (ConfigInput.products config) as [[|p ps]|] eqn:Hps.
    + split; [discriminate|]. intros ((ps & [= <-] & Hne & _) & _).
      congruence.
    + destruct (validateProducts 0 (p :: ps)) as [[]|e] eqn:Hvalid.
      * apply validateProducts_spec in Hvalid.
        destruct (ConfigInput.secretKey config) as [key|] eqn:Hkey.
        2:{ split; [discriminate|]. intros (_ & (k & Hk & _) & _).
            discriminate Hk. }
        destruct (truthy key) eqn:Htruthy; simpl.
        2:{ split; [discriminate|]. intros (_ & (k & [= <-] & Hprefix) & _).
            unfold truthy in Htruthy. apply negb_false_iff in Htruthy.
            apply bool_decide_eq_true in Htruthy. subst key.
            discriminate Hprefix. }
        destruct (String.prefix "sk_" key) eqn:Hprefix; simpl.
        2:{ split; [discriminate|]. intros (_ & (k & [= <-] & Hp) & _).
            congruence. }
        destruct (ConfigInput.onPurchase config) eqn:Hhook; simpl.
        2:{ split; [discriminate|]. intros (_ & _ & H). discriminate H. }
        split; [intros _|reflexivity].
        split; [exists (p :: ps); repeat split; [discriminate | exact Hvalid]|].
        split; [exists key; split; [reflexivity | exact Hprefix] | reflexivity].
      * split; [discriminate|]. intros ((ps' & [= <-] & _ & Hall) & _).
        apply (validateProducts_spec 0) in Hall. congruence.
    + split; [discriminate|]. intros ((ps & Hsome & _) & _).
      discriminate Hsome.
  - intros ps i p e Hps Hp He Hbefore. unfold validateConfig. rewrite Hps.
    destruct ps as [|x ps]; [discriminate Hp|].
    rewrite (validateProducts_first_invalid 0 (x :: ps) i p e Hp He Hbefore).
    reflexivity.
Qed.

Lemma validateConfig_accepts_exactly_valid_configurations_witness :
  validateConfig
    (ConfigInput.mk (Some [ebook; mispriced]) (Some "sk_test_123") true)
  = Err (Thrown
           "Invalid product at index 1: Product price must be a non-negative number").
Proof.
  destruct (validateConfig_accepts_exactly_valid_configurations
              (ConfigInput.mk (Some [ebook; mispriced]) (Some "sk_test_123")
                 true)) as [_ Hfirst].
  apply (Hfirst [ebook; mispriced] 1%nat mispriced
           (Thrown "Product price must be a non-negative number"));
    [reflexivity | reflexivity | reflexivity |].
  repeat constructor; discriminate.
Defined.

(* ===================================================================== *)
(** ** Returned sessions are the stored ones *)
(* ===================================================================== *)

Lemma returns_stored_store sessionId session :
  returns_stored sessionId (SessionManager.store sessionId session).
Proof.
  intros sm s' sm' [= <- <-]. simpl. apply lookup_insert_eq.
Qed.

Lemma returns_stored_throw sessionId e :
  returns_stored sessionId (throw e).
Proof. intros sm s' sm' H. discriminate H. Qed.

Lemma returns_stored_bind {A} sessionId (m : M SessionManager.t A)
    (k : A → M SessionManager.t CheckoutSession.t) :
  (∀ a, returns_stored sessionId (k a)) →
  returns_stored sessionId (bind m k).
Proof.
  intros Hk sm s' sm'. unfold bind.
  destruct (m sm) as [[a|e] sm1]; [apply Hk | discriminate].
Qed.

Lemma returns_stored_addItem now sessionId productId quantity :
  returns_stored sessionId
    (SessionManager.addItem now sessionId productId quantity).
Proof.
  unfold SessionManager.addItem. apply returns_stored_bind. intros session.
  intros sm s' sm'.
  destruct (SessionManager.products sm !! productId); [|discriminate].
  destruct (quantity <=? 0); [discriminate|].
  apply returns_stored_store.
Qed.

Lemma returns_stored_removeItem now sessionId productId :
  returns_stored sessionId (SessionManager.removeItem now sessionId productId).
Proof.
  unfold SessionManager.removeItem. apply returns_stored_bind. intros session.
  apply returns_stored_store.
Qed.

(** X25.  The session a cart or buyer operation returns is the session it
    has stored: after a call of [addItem], [removeItem], [updateQuantity],
    [setBuyer] or [updateStatus] that returns, the session map holds the
    returned session under the id the call was given, so a lookup at a
    clock reading up to its [expiresAt] returns that very session. *)
Theorem returned_session_is_stored
    (now : Z) (sessionId productId : string) (quantity : Z)
    (buyer : BuyerInfo.t) (status : SessionStatus.t)
    (sm sm' : SessionManager.t) (s' : CheckoutSession.t) (later : Z) :
  SessionManager.addItem now sessionId productId quantity sm = (Ok s', sm')
  ∨ SessionManager.removeItem now sessionId productId sm = (Ok s', sm')
  ∨ SessionManager.updateQuantity now sessionId productId quantity sm
    = (Ok s', sm')
  ∨ SessionManager.setBuyer now sessionId buyer sm = (Ok s', sm')
  ∨ SessionManager.updateStatus now sessionId status sm = (Ok s', sm') →
  live later s' →
  SessionManager.sessions sm' !! sessionId = Some s'
  ∧ SessionManager.get later sessionId sm' = (Ok (Some s'), sm').
Proof.
  intros Hcall Hlive.
  assert (Hstored : SessionManager.sessions sm' !! sessionId = Some s').
  { destruct Hcall as [H|[H|[H|[H|H]]]]; revert H.
    - apply returns_stored_addItem.
    - apply returns_stored_removeItem.
    - unfold SessionManager.updateQuantity. destruct (quantity =? 0).
      + apply returns_stored_removeItem.
      + apply returns_stored_bind. intros session.
        destruct (find_item productId (CheckoutSession.items session));
          [apply returns_stored_store | apply returns_stored_throw].
    - unfold SessionManager.setBuyer. apply returns_stored_bind.
      intros session. apply returns_stored_store.
    - unfold SessionManager.updateStatus. apply returns_stored_bind.
      intros session. apply returns_stored_store. }
  split; [exact Hstored|]. apply get_live; assumption.
Qed.

Lemma returned_session_is_stored_witness :
  ∃ s' sm',
    SessionManager.addItem 10 "cs_A" "test-2" 1 manager_A = (Ok s', sm')
    ∧ SessionManager.get 20 "cs_A" sm' = (Ok (Some s'), sm').
Proof.
  eexists _, _. split; [vm_compute; reflexivity|].
  eapply (returned_session_is_stored 10 "cs_A" "test-2" 1 alice
            SessionStatus.ready manager_A).
  - left. vm_compute. reflexivity.
  - unfold live; simpl; lia.
Defined.
